(** * The HIV-risk scoring call of openmrs-form-engine-lib: [getMLRiskScore]

    A shallow embedding of [src/api/api.ts], function [getMLRiskScore]: the
    encoding of the positional parameters into the [predictionVariables]
    object, the request sent to the scoring endpoint, and the classification
    of the returned probability.

    The function is written in TypeScript over values of type [any]; the
    embedding therefore starts with the fragment of ECMAScript the function
    relies on: IEEE-754 binary64 numbers, the conversion of strings to
    numbers, loose equality [==] and the relational operators. *)

From Stdlib Require Import ZArith Bool List Ascii String DecimalString Lia.
From Stdlib Require Import Floats.
From stdpp Require Import base option list strings gmap.

(** ** ECMAScript numbers *)

Module Number.

Local Open Scope Z_scope.

(** A Number is a binary64 value.  [spec_float] is the Standard Library's
    specification of IEEE-754 values; finite values are kept in the
    canonical form of binary64 (precision 53, least exponent -1074), the
    form on which [SFcompare] is the numerical order. *)
Definition number : Type := spec_float.

Definition NaN : number := S754_nan.

(** The integer nearest to [n / d], ties to even ([0 <= n], [0 < d]). *)
Definition round_half_even (n d : Z) : Z :=
  let q := n / d in
  let r := n mod d in
  match 2 * r ?= d with
  | Lt => q
  | Gt => q + 1
  | Eq => if Z.even q then q else q + 1
  end.

(** [2 ^ k <= n / d], for [k] of either sign. *)
Definition ratio_ge_pow2 (n d k : Z) : bool :=
  if 0 <=? k then d * 2 ^ k <=? n else d <=? n * 2 ^ (- k).

(** The integer part of the binary logarithm of [n / d] ([0 < n], [0 < d]). *)
Definition ilog2_ratio (n d : Z) : Z :=
  let k := Z.log2 n - Z.log2 d in
  if ratio_ge_pow2 n d k then k else k - 1.

(** The Number value for the real [n / d] with sign [s]: the binary64
    value nearest to it, ties to even, overflowing to infinity. *)
Definition of_ratio (s : bool) (n d : Z) : number :=
  if n =? 0 then S754_zero s
  else
    let e := Z.max (ilog2_ratio n d - 52) (-1074) in
    let m :=
      if 0 <=? e then round_half_even n (d * 2 ^ e)
      else round_half_even (n * 2 ^ (- e)) d in
    let e' := if m =? 2 ^ 53 then e + 1 else e in
    let m' := if m =? 2 ^ 53 then 2 ^ 52 else m in
    if m' =? 0 then S754_zero s
    else if 971 <? e' then S754_infinity s
    else S754_finite s (Z.to_pos m') e'.

(** The Number value for [digits * 10 ^ exp10]. *)
Definition of_decimal (s : bool) (digits exp10 : Z) : number :=
  if 0 <=? exp10 then of_ratio s (digits * 10 ^ exp10) 1
  else of_ratio s digits (10 ^ (- exp10)).

Definition of_Z (z : Z) : number := of_ratio (z <? 0) (Z.abs z) 1.

(** Number::equal: false when an operand is NaN; the two zeros are equal. *)
Definition equal (x y : number) : bool := SFeqb x y.

(** Number::lessThan: [None] is the undefined result of a comparison with
    NaN. *)
Definition lessThan (x y : number) : option bool :=
  match SFcompare x y with
  | Some Lt => Some true
  | Some _ => Some false
  | None => None
  end.

Definition is_NaN (x : number) : bool :=
  match x with S754_nan => true | _ => false end.

Definition is_zero (x : number) : bool :=
  match x with S754_zero _ => true | _ => false end.

End Number.

Export Number.

(** ** Strings as numbers: StringToNumber

    A string is a sequence of code units; [string] holds the code units
    below 256, which covers every literal of the source. *)

Module StringToNumber.

Local Open Scope Z_scope.

Definition code (c : ascii) : Z := Z.of_nat (nat_of_ascii c).

(** StrWhiteSpaceChar among the code units below 256: TAB, LF, VT, FF, CR,
    SP and NBSP. *)
Definition is_white_space (c : ascii) : bool :=
  let n := code c in
  ((9 <=? n) && (n <=? 13)) || (n =? 32) || (n =? 160).

Fixpoint trim_start (l : list ascii) : list ascii :=
  match l with
  | c :: l' => if is_white_space c then trim_start l' else l
  | [] => []
  end.

Definition trim (l : list ascii) : list ascii :=
  rev (trim_start (rev (trim_start l))).

(** The value of [c] as a digit of the given base (2, 8, 10 or 16). *)
Definition digit (base : Z) (c : ascii) : option Z :=
  let n := code c in
  let v :=
    if (48 <=? n) && (n <=? 57) then Some (n - 48)
    else if (97 <=? n) && (n <=? 102) then Some (n - 87)
    else if (65 <=? n) && (n <=? 70) then Some (n - 55)
    else None in
  match v with
  | Some d => if d <? base then Some d else None
  | None => None
  end.

(** Reads the longest prefix of digits: the accumulated value, the number
    of digits read and the rest of the input. *)
Fixpoint digits (base : Z) (l : list ascii) (acc : Z) (n : Z)
  : Z * Z * list ascii :=
  match l with
  | c :: l' =>
      match digit base c with
      | Some d => digits base l' (acc * base + d) (n + 1)
      | None => (acc, n, l)
      end
  | [] => (acc, n, [])
  end.

(** ExponentPart_opt followed by the end of the input. *)
Definition exponent_part (l : list ascii) : option Z :=
  match l with
  | [] => Some 0
  | c :: l' =>
      if (code c =? 101) || (code c =? 69) then
        let '(neg, l'') :=
          match l' with
          | s :: r =>
              if code s =? 43 then (false, r)
              else if code s =? 45 then (true, r)
              else (false, l')
          | [] => (false, l')
          end in
        match digits 10 l'' 0 0 with
        | (v, n, []) => if 0 <? n then Some (if neg then - v else v) else None
        | _ => None
        end
      else None
  end.

(** StrUnsignedDecimalLiteral, with the sign read before it. *)
Definition unsigned_decimal (s : bool) (l : list ascii) : number :=
  if String.eqb (string_of_list_ascii l) "Infinity" then S754_infinity s
  else
    let '(ip, ni, r1) := digits 10 l 0 0 in
    let '(d, nf, r2) :=
      match r1 with
      | c :: r => if code c =? 46 then digits 10 r ip 0 else (ip, 0, r1)
      | [] => (ip, 0, r1)
      end in
    if 0 <? ni + nf then
      match exponent_part r2 with
      | Some e => of_decimal s d (e - nf)
      | None => NaN
      end
    else NaN.

(** NonDecimalIntegerLiteral: the digits that follow [0x], [0o] or [0b]. *)
Definition non_decimal (base : Z) (l : list ascii) : number :=
  match digits base l 0 0 with
  | (v, n, []) => if 0 <? n then of_Z v else NaN
  | _ => NaN
  end.

Definition radix_prefix (c : ascii) : option Z :=
  let n := code c in
  if (n =? 120) || (n =? 88) then Some 16
  else if (n =? 111) || (n =? 79) then Some 8
  else if (n =? 98) || (n =? 66) then Some 2
  else None.

Definition StrNumericLiteral (l : list ascii) : number :=
  let decimal :=
    match l with
    | c :: r =>
        if code c =? 43 then unsigned_decimal false r
        else if code c =? 45 then unsigned_decimal true r
        else unsigned_decimal false l
    | [] => NaN
    end in
  match l with
  | z :: x :: r =>
      if code z =? 48 then
        match radix_prefix x with
        | Some base => non_decimal base r
        | None => decimal
        end
      else decimal
  | _ => decimal
  end.

(** StringToNumber: white space is trimmed, the empty string is +0, a
    string that is no StringNumericLiteral is NaN. *)
Definition StringToNumber (str : string) : number :=
  match trim (list_ascii_of_string str) with
  | [] => S754_zero false
  | l => StrNumericLiteral l
  end.

End StringToNumber.

Export StringToNumber.

(** ** Primitive values and the operators on them *)

Module Value.

(** The values a position of the parameter list holds: a coded identifier
    (a string), a number, a boolean, [null], or [undefined] (which is also
    what reading a position past the end gives). *)
Inductive prim : Type :=
| Undefined
| Null
| Bool (b : bool)
| Num (x : number)
| Str (s : string).

Definition ToNumber (v : prim) : number :=
  match v with
  | Undefined => NaN
  | Null => S754_zero false
  | Bool b => if b then of_Z 1 else of_Z 0
  | Num x => x
  | Str s => StringToNumber s
  end.

(** [x == y] (IsLooselyEqual) on primitive values. *)
Fixpoint loose_eq_fuel (fuel : nat) (x y : prim) : bool :=
  match x, y with
  | Undefined, Undefined | Null, Null => true
  | Bool a, Bool b => Bool.eqb a b
  | Num a, Num b => equal a b
  | Str s, Str t => String.eqb s t
  | Undefined, Null | Null, Undefined => true
  | Num a, Str t => equal a (StringToNumber t)
  | Str s, Num b => equal (StringToNumber s) b
  | Bool _, _ =>
      match fuel with
      | S n => loose_eq_fuel n (Num (ToNumber x)) y
      | O => false
      end
  | _, Bool _ =>
      match fuel with
      | S n => loose_eq_fuel n x (Num (ToNumber y))
      | O => false
      end
  | _, _ => false
  end.

(** A boolean operand is replaced by its number at most once per side. *)
Definition loose_eq (x y : prim) : bool := loose_eq_fuel 2 x y.

(** IsLessThan on primitive values: [None] is the undefined result of a
    comparison with NaN.  Two strings are compared by code units. *)
Definition IsLessThan (x y : prim) : option bool :=
  match x, y with
  | Str s, Str t => Some (String.ltb s t)
  | _, _ => lessThan (ToNumber x) (ToNumber y)
  end.

(** [x < y], [x > y] and [x <= y]. *)
Definition lt (x y : prim) : bool :=
  match IsLessThan x y with Some b => b | None => false end.
Definition gt (x y : prim) : bool := lt y x.
Definition le (x y : prim) : bool :=
  match IsLessThan y x with Some b => negb b | None => false end.

Definition ToBoolean (v : prim) : bool :=
  match v with
  | Undefined | Null => false
  | Bool b => b
  | Num x => negb (is_zero x || is_NaN x)
  | Str s => negb (String.eqb s "")
  end.

Definition nullish (v : prim) : bool :=
  match v with Undefined | Null => true | _ => false end.

End Value.

Export Value.

(** Notations for the operators, in the scope [js]. *)
Declare Scope js_scope.
Delimit Scope js_scope with js.
Notation "x == y" := (loose_eq x y) (at level 70, no associativity) : js_scope.
Notation "x < y" := (lt x y) : js_scope.
Notation "x > y" := (gt x y) : js_scope.
Notation "x <= y" := (le x y) : js_scope.

(** A number literal of the source. *)
Definition num (z : Z) : prim := Num (of_Z z).
Arguments num z%_Z.

(** [params[i]]: reading past the end of an array gives [undefined]. *)
Definition element (params : list prim) (i : nat) : prim :=
  default Undefined (params !! i).
Notation "params .[ i ]" := (element params i%nat)
  (at level 1, left associativity, format "params .[ i ]") : js_scope.

(** ** The feature encoder

    [predictionVariables] is an object literal whose properties are then
    assigned one at a time; an object is a finite map from property names to
    values, an assignment [o.k = v] is [<[k:=v]> o]. *)

Module Encoder.

Local Open Scope js_scope.
Local Open Scope string_scope.

Abbreviation object := (gmap string prim).

(** The object literal, lines 109-149. *)
Definition initial (params : list prim) : object :=
  list_to_map [
    ("AgeAtTest", num 0);
    ("MonthsSinceLastTest", if params.[6] > num 0 then params.[6] else num 0);
    ("GenderMale", if params.[3] == Str "M" then num 1 else num 0);
    ("GenderFemale", if params.[3] == Str "F" then num 1 else num 0);
    ("KeyPopulationTypeGP", num 0);
    ("KeyPopulationTypeSW", num 0);
    ("MaritalStatusMarried", num 0);
    ("MaritalStatusDivorced", num 0);
    ("MaritalStatusPolygamous", num 0);
    ("MaritalStatusWidowed", num 0);
    ("MaritalStatusSingle", num 0);
    ("MaritalStatusMinor", num 0);
    ("PatientDisabledNo", num 0);
    ("PatientDisabledDisabled", num 0);
    ("EverTestedForHIVYes", num 0);
    ("EverTestedForHivNo", num 0);
    ("ClientTestedAsIndividual", num 0);
    ("ClientTestedAsCouple", num 0);
    ("EntryPointVCT", num 0);
    ("EntryPointOPD", num 0);
    ("EntryPointMTC", num 0);
    ("EntryPointIPD", num 0);
    ("EntryPointMOBILE", num 0);
    ("EntryPointOther", num 0);
    ("EntryPointHB", num 0);
    ("EntryPointPEDS", num 0);
    ("EntryPointVMMC", num 0);
    ("EntryPointTB", num 0);
    ("EntryPointCCC", num 0);
    ("EntryPointPNS", num 0);
    ("TestingStrategyVCT", num 0);
    ("TestingStrategyHB", num 0);
    ("TestingStrategyMOBILE", num 0);
    ("TestingStrategyHP", num 0);
    ("TestingStrategyNP", num 0);
    ("TBScreeningNoPresumedTB", num 0);
    ("TBScreeningPresumedTB", num 0);
    ("ClientSelfTestedNo", num 0);
    ("ClientSelfTestedYes", num 0)
  ].

(** convert marital status *)
Definition convert_marital_status (params : list prim) (predictionVariables : object) : object :=
  if params.[5] == Str "5555AAAAAAAAAAAAAAAAAAAAAAAAAAAAAAAA" then
    <["MaritalStatusMarried" := num 1]> predictionVariables
  else if params.[5] == Str "159715AAAAAAAAAAAAAAAAAAAAAAAAAAAAAA" then
    <["MaritalStatusPolygamous" := num 1]> predictionVariables
  else if params.[5] == Str "1058AAAAAAAAAAAAAAAAAAAAAAAAAAAAAAAA" then
    <["MaritalStatusDivorced" := num 1]> predictionVariables
  else if params.[5] == Str "1059AAAAAAAAAAAAAAAAAAAAAAAAAAAAAAAA" then
    <["MaritalStatusWidowed" := num 1]> predictionVariables
  else if params.[5] == Str "1057AAAAAAAAAAAAAAAAAAAAAAAAAAAAAAAA" then
    <["MaritalStatusSingle" := num 1]> predictionVariables
  else predictionVariables.

(** [if (params[0] < 15)] *)
Definition convert_minor (params : list prim) (predictionVariables : object) : object :=
  if params.[0] < num 15 then
    <["MaritalStatusMinor" := num 1]> predictionVariables
  else predictionVariables.

(** convert population type *)
Definition convert_population_type (params : list prim) (predictionVariables : object) : object :=
  if params.[7] == Str "164928AAAAAAAAAAAAAAAAAAAAAAAAAAAAAA" then
    <["KeyPopulationTypeGP" := num 1]> predictionVariables
  else if params.[7] == Str "164929AAAAAAAAAAAAAAAAAAAAAAAAAAAAAA" then
    <["KeyPopulationTypeSW" := num 1]> predictionVariables
  else predictionVariables.

(** convert disability status *)
Definition convert_disability_status (params : list prim) (predictionVariables : object) : object :=
  if params.[4] == Str "1066AAAAAAAAAAAAAAAAAAAAAAAAAAAAAAAA" then
    <["PatientDisabledNo" := num 1]> predictionVariables
  else if params.[4] == Str "1065AAAAAAAAAAAAAAAAAAAAAAAAAAAAAAAA" then
    <["PatientDisabledDisabled" := num 1]> predictionVariables
  else predictionVariables.

(** convert ever tested for hiv status *)
Definition convert_ever_tested (params : list prim) (predictionVariables : object) : object :=
  if params.[2] == Str "1065AAAAAAAAAAAAAAAAAAAAAAAAAAAAAAAA" then
    <["EverTestedForHIVYes" := num 1]> predictionVariables
  else if params.[2] == Str "1066AAAAAAAAAAAAAAAAAAAAAAAAAAAAAAAA" then
    <["EverTestedForHivNo" := num 1]> predictionVariables
  else predictionVariables.

(** converter for tested as i.e. individual, couple *)
Definition convert_tested_as (params : list prim) (predictionVariables : object) : object :=
  if params.[2] == Str "164957AAAAAAAAAAAAAAAAAAAAAAAAAAAAAA" then
    <["ClientTestedAsIndividual" := num 1]> predictionVariables
  else if params.[2] == Str "164958AAAAAAAAAAAAAAAAAAAAAAAAAAAAAA" then
    <["ClientTestedAsCouple" := num 1]> predictionVariables
  else predictionVariables.

(** convert entry point *)
Definition convert_entry_point (params : list prim) (predictionVariables : object) : object :=
  if params.[1] == num 159940 then
    <["EntryPointVCT" := num 1]> predictionVariables
  else if params.[1] == Str "160542AAAAAAAAAAAAAAAAAAAAAAAAAAAAAA" then
    <["EntryPointOPD" := num 1]> predictionVariables
  else if params.[1] == Str "160456AAAAAAAAAAAAAAAAAAAAAAAAAAAAAA" then
    <["EntryPointMTC" := num 1]> predictionVariables
  else if params.[1] == Str "5485AAAAAAAAAAAAAAAAAAAAAAAAAAAAAAAA" then
    <["EntryPointIPD" := num 1]> predictionVariables
  else if params.[1] == Str "159939AAAAAAAAAAAAAAAAAAAAAAAAAAAAAA" then
    <["EntryPointMOBILE" := num 1]> predictionVariables
  else if params.[1] == Str "159938AAAAAAAAAAAAAAAAAAAAAAAAAAAAAA" then
    <["EntryPointHB" := num 1]> predictionVariables
  else if params.[1] == Str "162181AAAAAAAAAAAAAAAAAAAAAAAAAAAAAA" then
    <["EntryPointPEDS" := num 1]> predictionVariables
  else if params.[1] == Str "5622AAAAAAAAAAAAAAAAAAAAAAAAAAAAAAAA" then
    <["EntryPointOther" := num 1]> predictionVariables
  else if params.[1] == Str "162223AAAAAAAAAAAAAAAAAAAAAAAAAAAAAA" then
    <["EntryPointVMMC" := num 1]> predictionVariables
  else if params.[1] == Str "160541AAAAAAAAAAAAAAAAAAAAAAAAAAAAAA" then
    <["EntryPointTB" := num 1]> predictionVariables
  else predictionVariables.

(** convert strategy *)
Definition convert_strategy (params : list prim) (predictionVariables : object) : object :=
  if params.[10] == Str "159938AAAAAAAAAAAAAAAAAAAAAAAAAAAAAA" then
    <["TestingStrategyHB" := num 1]> predictionVariables
  else if params.[10] == Str "159939AAAAAAAAAAAAAAAAAAAAAAAAAAAAAA" then
    <["TestingStrategyMOBILE" := num 1]> predictionVariables
  else if params.[10] == Str "164163AAAAAAAAAAAAAAAAAAAAAAAAAAAAAA" then
    <["TestingStrategyHP" := num 1]> predictionVariables
  else if params.[10] == Str "164953AAAAAAAAAAAAAAAAAAAAAAAAAAAAAA" then
    <["TestingStrategyNP" := num 1]> predictionVariables
  else if (params.[10] == Str "164954AAAAAAAAAAAAAAAAAAAAAAAAAAAAAA")
          || (params.[10] == Str "164955AAAAAAAAAAAAAAAAAAAAAAAAAAAAAA") then
    <["TestingStrategyVCT" := num 1]> predictionVariables
  else predictionVariables.

(** convert HIV self test *)
Definition convert_self_test (params : list prim) (predictionVariables : object) : object :=
  if params.[8] == Str "1066AAAAAAAAAAAAAAAAAAAAAAAAAAAAAAAA" then
    <["ClientSelfTestedNo" := num 1]> predictionVariables
  else if params.[8] == Str "1065AAAAAAAAAAAAAAAAAAAAAAAAAAAAAAAA" then
    <["ClientSelfTestedYes" := num 1]> predictionVariables
  else predictionVariables.

(** convert TB screening *)
Definition convert_tb_screening (params : list prim) (predictionVariables : object) : object :=
  if (params.[9] == Str "1660AAAAAAAAAAAAAAAAAAAAAAAAAAAAAAAA")
     || (params.[9] == Str "160737AAAAAAAAAAAAAAAAAAAAAAAAAAAAAA") then
    <["TBScreeningNoPresumedTB" := num 1]> predictionVariables
  else if (params.[9] == Str "142177AAAAAAAAAAAAAAAAAAAAAAAAAAAAAA")
          || (params.[9] == Str "1111AAAAAAAAAAAAAAAAAAAAAAAAAAAAAAAA") then
    <["TBScreeningPresumedTB" := num 1]> predictionVariables
  else predictionVariables.

(** The object [predictionVariables] as it stands after line 271: the
    literal, then the conversions in the order of the source. *)
Definition predictionVariables (params : list prim) : object :=
  let predictionVariables := initial params in
  let predictionVariables := convert_marital_status params predictionVariables in
  let predictionVariables := convert_minor params predictionVariables in
  let predictionVariables := convert_population_type params predictionVariables in
  let predictionVariables := convert_disability_status params predictionVariables in
  let predictionVariables := convert_ever_tested params predictionVariables in
  let predictionVariables := convert_tested_as params predictionVariables in
  let predictionVariables := convert_entry_point params predictionVariables in
  let predictionVariables := convert_strategy params predictionVariables in
  let predictionVariables := convert_self_test params predictionVariables in
  let predictionVariables := convert_tb_screening params predictionVariables in
  predictionVariables.

(** The blocks of assignments, by name: each of them either leaves the
    object as it is or sets one property of its own to 1. *)

Inductive conversion : Type :=
| MaritalStatus | Minor | PopulationType | DisabilityStatus | EverTested
| TestedAs | EntryPoint | Strategy | SelfTest | TbScreening.

Definition convert (c : conversion) : list prim -> object -> object :=
  match c with
  | MaritalStatus => convert_marital_status
  | Minor => convert_minor
  | PopulationType => convert_population_type
  | DisabilityStatus => convert_disability_status
  | EverTested => convert_ever_tested
  | TestedAs => convert_tested_as
  | EntryPoint => convert_entry_point
  | Strategy => convert_strategy
  | SelfTest => convert_self_test
  | TbScreening => convert_tb_screening
  end.

(** The properties a conversion may assign. *)
Definition targets (c : conversion) : list string :=
  match c with
  | MaritalStatus =>
      ["MaritalStatusMarried"; "MaritalStatusPolygamous"; "MaritalStatusDivorced";
       "MaritalStatusWidowed"; "MaritalStatusSingle"]
  | Minor => ["MaritalStatusMinor"]
  | PopulationType => ["KeyPopulationTypeGP"; "KeyPopulationTypeSW"]
  | DisabilityStatus => ["PatientDisabledNo"; "PatientDisabledDisabled"]
  | EverTested => ["EverTestedForHIVYes"; "EverTestedForHivNo"]
  | TestedAs => ["ClientTestedAsIndividual"; "ClientTestedAsCouple"]
  | EntryPoint =>
      ["EntryPointVCT"; "EntryPointOPD"; "EntryPointMTC"; "EntryPointIPD";
       "EntryPointMOBILE"; "EntryPointHB"; "EntryPointPEDS"; "EntryPointOther";
       "EntryPointVMMC"; "EntryPointTB"]
  | Strategy =>
      ["TestingStrategyHB"; "TestingStrategyMOBILE"; "TestingStrategyHP";
       "TestingStrategyNP"; "TestingStrategyVCT"]
  | SelfTest => ["ClientSelfTestedNo"; "ClientSelfTestedYes"]
  | TbScreening => ["TBScreeningNoPresumedTB"; "TBScreeningPresumedTB"]
  end.

(** [predictionVariables.k = 1], or nothing. *)
Definition assign (t : option string) (pv : object) : object :=
  match t with
  | Some k => <[k := num 1]> pv
  | None => pv
  end.

End Encoder.

Export Encoder.

(** ** Values of the scoring response *)

Module Json.

#[local] Set Warnings "-register-all".

Local Open Scope string_scope.

(** A value as [JSON.parse] builds it, and [undefined] for what a property
    read finds missing.  [props] lists the own properties of an object,
    each name once. *)
Inductive json : Type :=
| JPrim (p : prim)
| JArr (items : list json)
| JObj (props : list (string * json)).

Definition undefined : json := JPrim Undefined.

Definition ToBoolean (v : json) : bool :=
  match v with
  | JPrim p => Value.ToBoolean p
  | JArr _ | JObj _ => true
  end.

Definition nullish (v : json) : bool :=
  match v with
  | JPrim p => Value.nullish p
  | JArr _ | JObj _ => false
  end.

Fixpoint own_property (props : list (string * json)) (k : string) : option json :=
  match props with
  | (k', v) :: rest => if String.eqb k' k then Some v else own_property rest k
  | [] => None
  end.

(** [v[k]] on a value that is neither [undefined] nor [null], for a name
    [k] that no prototype defines and that is neither an index nor
    ["length"]: the three names the function reads are such names. *)
Definition Get (v : json) (k : string) : json :=
  match v with
  | JObj props => default undefined (own_property props k)
  | JPrim _ | JArr _ => undefined
  end.

(** [v.k] and [v[k]]: a TypeError ([None]) on [undefined] and [null]. *)
Definition member (v : json) (k : string) : option json :=
  if nullish v then None else Some (Get v k).

(** Whether converting [v] to a primitive throws a TypeError: a parsed
    object whose own property ["toString"] hides the inherited method has
    no callable conversion left; an array converts its elements. *)
Fixpoint conversion_throws (v : json) : bool :=
  match v with
  | JPrim p => false
  | JArr items => existsb conversion_throws items
  | JObj props => bool_decide (is_Some (own_property props "toString"))
  end.

(** StringToNumber of the text that [v] contributes to [Array.prototype.join]
    as an element: empty for [undefined] and [null], the joined elements for
    an array, ["[object Object]"] for an object.  A number reads back from
    its own text as itself (the negative zero as zero); a text with a comma
    is no numeric literal. *)
Fixpoint number_of_element (v : json) : number :=
  match v with
  | JPrim Undefined | JPrim Null => S754_zero false
  | JPrim (Bool _) => NaN
  | JPrim (Num x) => if is_zero x then S754_zero false else x
  | JPrim (Str s) => StringToNumber s
  | JArr [] => S754_zero false
  | JArr [x] => number_of_element x
  | JArr _ => NaN
  | JObj _ => NaN
  end.

(** ToNumber, after ToPrimitive with hint number. *)
Definition ToNumber (v : json) : option number :=
  if conversion_throws v then None
  else Some match v with
            | JPrim p => Value.ToNumber p
            | JArr _ | JObj _ => number_of_element v
            end.

(** [v > t], [v < t] and [v <= t] against a number [t]. *)
Definition gt (v : json) (t : number) : option bool :=
  x ← ToNumber v; Some (default false (lessThan t x)).
Definition lt (v : json) (t : number) : option bool :=
  x ← ToNumber v; Some (default false (lessThan x t)).
Definition le (v : json) (t : number) : option bool :=
  x ← ToNumber v; Some (default false (negb <$> lessThan t x)).

Definition str (s : string) : json := JPrim (Str s).

End Json.

Export Json.

(** ** Promises and effects *)

Module Async.

Inductive error : Type := TypeError | SyntaxError | NetworkError.

(** The text of a request body.  [JSON.stringify] is kept as a constructor:
    the text it produces is a function of the value alone. *)
Inductive body_text : Type := JSON_stringify (v : json).

Record RequestInit : Type := {
  method : string;
  headers : list (string * string);
  body : body_text
}.

(** A response, by what [response.json()] resolves to: the parsed body, or
    nothing when the body is no JSON text. *)
Record Response : Type := { parsed : option json }.

(** An asynchronous computation: it returns, throws, or performs one of the
    effects of the function and goes on. *)
Inductive Async (A : Type) : Type :=
| Return (a : A)
| Throw (e : error)
| console_log (args : list json) (k : Async A)
| Date_toISOString (k : string -> Async A)
| fetch (url : string) (init : RequestInit) (k : Response -> Async A).

Arguments Return {A} a.
Arguments Throw {A} e.
Arguments console_log {A} args k.
Arguments Date_toISOString {A} k.
Arguments fetch {A} url init k.

Fixpoint bind {A B : Type} (m : Async A) (f : A -> Async B) : Async B :=
  match m with
  | Return a => f a
  | Throw e => Throw e
  | console_log args k => console_log args (bind k f)
  | Date_toISOString k => Date_toISOString (fun d => bind (k d) f)
  | fetch url init k => fetch url init (fun r => bind (k r) f)
  end.

#[export] Instance Async_ret : MRet Async := fun A a => Return a.
#[export] Instance Async_bind : MBind Async := fun A B f m => bind m f.

(** An expression that may throw a TypeError. *)
Definition eval {A : Type} (e : option A) : Async A :=
  match e with
  | Some a => Return a
  | None => Throw TypeError
  end.

(** [response.json()] *)
Definition json_of (response : Response) : Async json :=
  match parsed response with
  | Some v => Return v
  | None => Throw SyntaxError
  end.

(** The world the function runs in: the clock, and the network, which
    answers a request or fails. *)
Record Host : Type := {
  clock : string;
  network : string -> RequestInit -> option Response
}.

Inductive settled (A : Type) : Type :=
| Fulfilled (a : A)
| Rejected (e : error).

Arguments Fulfilled {A} a.
Arguments Rejected {A} e.

(** What a run leaves behind: the lines logged, the requests sent, and how
    the promise settled. *)
Record trace (A : Type) : Type := {
  logged : list (list json);
  requests : list (string * RequestInit);
  outcome : settled A
}.

Arguments logged {A} t.
Arguments requests {A} t.
Arguments outcome {A} t.

Fixpoint run {A : Type} (h : Host) (m : Async A) : trace A :=
  match m with
  | Return a => {| logged := []; requests := []; outcome := Fulfilled a |}
  | Throw e => {| logged := []; requests := []; outcome := Rejected e |}
  | console_log args k =>
      let t := run h k in
      {| logged := args :: logged t; requests := requests t; outcome := outcome t |}
  | Date_toISOString k => run h (k (clock h))
  | fetch url init k =>
      match network h url init with
      | Some response =>
          let t := run h (k response) in
          {| logged := logged t; requests := (url, init) :: requests t;
             outcome := outcome t |}
      | None =>
          {| logged := []; requests := [(url, init)];
             outcome := Rejected NetworkError |}
      end
  end.

End Async.

Export Async.

(** ** getMLRiskScore *)

Module Api.

Local Open Scope string_scope.

Definition jnum (z : Z) : json := JPrim (num z).
Arguments jnum z%_Z.

(** The request body of lines 285-457. *)
Definition mlScoringRequestPayload : json :=
  JObj [
    ("modelConfigs", JObj [
      ("modelId", str "hts_xgb_1211_jan_2023");
      ("encounterDate", str "2023-03-15");
      ("facilityId", str "");
      ("debug", str "true")
    ]);
    ("variableValues", JObj [
    ("Age", jnum 17);
    ("births", jnum 0);
    ("pregnancies", jnum 0);
    ("literacy", jnum 0);
    ("poverty", jnum 0);
    ("anc", jnum 0);
    ("pnc", jnum 0);
    ("sba", jnum 0);
    ("hiv_prev", jnum 0);
    ("hiv_count", jnum 0);
    ("condom", jnum 0);
    ("intercourse", jnum 0);
    ("in_union", jnum 0);
    ("circumcision", jnum 0);
    ("partner_away", jnum 0);
    ("partner_men", jnum 0);
    ("partner_women", jnum 0);
    ("sti", jnum 0);
    ("fb", jnum 0);
    ("PopulationTypeGP", jnum 1);
    ("PopulationTypeKP", jnum 0);
    ("PopulationTypePRIORITY", jnum 0);
    ("KeyPopulationFSW", jnum 0);
    ("KeyPopulationMSM", jnum 0);
    ("KeyPopulationNR", jnum 1);
    ("KeyPopulationOther", jnum 0);
    ("KeyPopulationPWID", jnum 0);
    ("PriorityPopulationAGYW", jnum 0);
    ("PriorityPopulationFISHERMEN", jnum 0);
    ("PriorityPopulationNR", jnum 1);
    ("PriorityPopulationOTHER", jnum 0);
    ("DepartmentEMERGENCY", jnum 0);
    ("DepartmentIPD", jnum 1);
    ("DepartmentOPD", jnum 0);
    ("DepartmentPMTCT", jnum 0);
    ("DepartmentVCT", jnum 0);
    ("IsHealthWorkerNO", jnum 0);
    ("IsHealthWorkerNR", jnum 1);
    ("IsHealthWorkerYES", jnum 0);
    ("SexuallyActiveNO", jnum 0);
    ("SexuallyActiveNR", jnum 1);
    ("SexuallyActiveYES", jnum 0);
    ("NewPartnerNO", jnum 0);
    ("NewPartnerNR", jnum 1);
    ("NewPartnerYES", jnum 0);
    ("PartnerHIVStatusNEGATIVE", jnum 0);
    ("PartnerHIVStatusNR", jnum 1);
    ("PartnerHIVStatusPOSITIVE", jnum 0);
    ("PartnerHIVStatusUNKNOWN", jnum 0);
    ("NumberOfPartnersMULTIPLE", jnum 0);
    ("NumberOfPartnersNR", jnum 1);
    ("NumberOfPartnersSINGLE", jnum 0);
    ("AlcoholSexALWAYS", jnum 0);
    ("AlcoholSexNEVER", jnum 0);
    ("AlcoholSexNR", jnum 1);
    ("AlcoholSexSOMETIMES", jnum 0);
    ("MoneySexNO", jnum 0);
    ("MoneySexNR", jnum 1);
    ("MoneySexYES", jnum 0);
    ("CondomBurstNO", jnum 0);
    ("CondomBurstNR", jnum 1);
    ("CondomBurstYES", jnum 0);
    ("UnknownStatusPartnerNO", jnum 0);
    ("UnknownStatusPartnerNR", jnum 1);
    ("UnknownStatusPartnerYES", jnum 0);
    ("KnownStatusPartnerNO", jnum 0);
    ("KnownStatusPartnerNR", jnum 1);
    ("KnownStatusPartnerYES", jnum 0);
    ("PregnantNO", jnum 0);
    ("PregnantNR", jnum 1);
    ("PregnantYES", jnum 0);
    ("BreastfeedingMotherNO", jnum 0);
    ("BreastfeedingMotherNR", jnum 1);
    ("BreastfeedingMotherYES", jnum 0);
    ("ExperiencedGBVNO", jnum 0);
    ("ExperiencedGBVYES", jnum 0);
    ("CurrentlyOnPrepNO", jnum 0);
    ("CurrentlyOnPrepNR", jnum 0);
    ("CurrentlyOnPrepYES", jnum 0);
    ("CurrentlyHasSTINO", jnum 0);
    ("CurrentlyHasSTINR", jnum 0);
    ("CurrentlyHasSTIYES", jnum 0);
    ("SharedNeedleNO", jnum 0);
    ("SharedNeedleNR", jnum 1);
    ("SharedNeedleYES", jnum 0);
    ("NeedleStickInjuriesNO", jnum 0);
    ("NeedleStickInjuriesNR", jnum 1);
    ("NeedleStickInjuriesYES", jnum 0);
    ("TraditionalProceduresNO", jnum 0);
    ("TraditionalProceduresNR", jnum 1);
    ("TraditionalProceduresYES", jnum 0);
    ("MothersStatusNEGATIVE", jnum 0);
    ("MothersStatusNR", jnum 1);
    ("MothersStatusPOSITIVE", jnum 0);
    ("MothersStatusUNKNOWN", jnum 0);
    ("ReferredForTestingNO", jnum 0);
    ("ReferredForTestingYES", jnum 0);
    ("GenderFEMALE", jnum 1);
    ("GenderMALE", jnum 0);
    ("MaritalStatusDIVORCED", jnum 0);
    ("MaritalStatusMARRIED", jnum 0);
    ("MaritalStatusMINOR", jnum 0);
    ("MaritalStatusPOLYGAMOUS", jnum 1);
    ("MaritalStatusSINGLE", jnum 0);
    ("EverTestedForHivNO", jnum 0);
    ("EverTestedForHivYES", jnum 1);
    ("MonthsSinceLastTestLASTSIXMONTHS", jnum 0);
    ("MonthsSinceLastTestMORETHANTWOYEARS", jnum 1);
    ("MonthsSinceLastTestNR", jnum 0);
    ("MonthsSinceLastTestONETOTWOYEARS", jnum 0);
    ("MonthsSinceLastTestSEVENTOTWELVE", jnum 0);
    ("ClientTestedAsCOUPLE", jnum 0);
    ("ClientTestedAsINDIVIDUAL", jnum 0);
    ("EntryPointIPD", jnum 0);
    ("EntryPointOPD", jnum 0);
    ("EntryPointOTHER", jnum 0);
    ("EntryPointPEDIATRIC", jnum 0);
    ("EntryPointPMTCT_ANC", jnum 0);
    ("EntryPointPMTCT_MAT_PNC", jnum 0);
    ("EntryPointTB", jnum 0);
    ("EntryPointVCT", jnum 1);
    ("EntryPointVMMC", jnum 0);
    ("TestStrategyHB", jnum 0);
    ("TestStrategyHP", jnum 0);
    ("TestStrategyINDEX", jnum 0);
    ("TestStrategyMO", jnum 0);
    ("TestStrategyNP", jnum 0);
    ("TestStrategyOTHER", jnum 0);
    ("TestStrategySNS", jnum 0);
    ("TestStrategyVI", jnum 0);
    ("TestStrategyVS", jnum 1);
    ("TbScreeningCONFIRMEDTB", jnum 0);
    ("TbScreeningNOPRESUMEDTB", jnum 0);
    ("TbScreeningPRESUMEDTB", jnum 0);
    ("ClientSelfTestedNO", jnum 1);
    ("ClientSelfTestedYES", jnum 0);
    ("CoupleDiscordantNO", jnum 0);
    ("CoupleDiscordantNR", jnum 1);
    ("CoupleDiscordantYES", jnum 0);
    ("SEXUALNO", jnum 0);
    ("SEXUALYES", jnum 1);
    ("SOCIALNO", jnum 1);
    ("SOCIALYES", jnum 0);
    ("NONENO", jnum 1);
    ("NONEYES", jnum 0);
    ("NEEDLE_SHARINGNO", jnum 1);
    ("NEEDLE_SHARINGYES", jnum 0);
    ("ReceivedPrEPNO", jnum 1);
    ("ReceivedPrEPYES", jnum 0);
    ("ReceivedPEPNO", jnum 1);
    ("ReceivedPEPYES", jnum 0);
    ("ReceivedTBNO", jnum 1);
    ("ReceivedTBYES", jnum 0);
    ("ReceivedSTINO", jnum 1);
    ("ReceivedSTIYES", jnum 0);
    ("GBVSexualNO", jnum 1);
    ("GBVSexualYES", jnum 0);
    ("GBVPhysicalNO", jnum 1);
    ("GBVPhysicalYES", jnum 0);
    ("GBVEmotionalNO", jnum 1);
    ("GBVEmotionalYES", jnum 0);
    ("dayofweekFRIDAY", jnum 0);
    ("dayofweekMONDAY", jnum 0);
    ("dayofweekSATURDAY", jnum 0);
    ("dayofweekSUNDAY", jnum 0);
    ("dayofweekTHURSDAY", jnum 0);
    ("dayofweekTUESDAY", jnum 0);
    ("dayofweekWEDNESDAY", jnum 1)
    ])
  ].

Definition url : string :=
  "http://197.248.44.228:8600/openmrs/ws/rest/v1/keml/casefindingscore".

Definition lowRiskThreshold : number := of_decimal false 2625179 (-9).
Definition mediumRiskThreshold : number := of_decimal false 10638781 (-9).
Definition highRiskThreshold : number := of_decimal false 28924102 (-9).

Definition very_high_message : string :=
  "Client has a very high probability of a HIV positive test result. Testing is strongly recommended".
Definition high_message : string :=
  "Client has a high probability of a HIV positive test result. Testing is strongly recommended".
Definition medium_message : string :=
  "Client has a medium probability of a HIV positive test result. Testing is recommended".
Definition low_message : string :=
  "Client has a low probability of a HIV positive test result. Testing may not be recommended".
Definition no_results : string := "No results found".

(** [result?.result?.predictions] *)
Definition predictions (result : json) : json :=
  if Json.nullish result then undefined
  else
    let r := Get result "result" in
    if Json.nullish r then undefined else Get r "predictions".

(** [result?.result?.predictions['probability(1)']]: a link of the chain
    that is [undefined] or [null] ends the whole chain with [undefined]. *)
Definition chained_probability (result : json) : option json :=
  if Json.nullish result then Some undefined
  else
    let r := Get result "result" in
    if Json.nullish r then Some undefined
    else member (Get r "predictions") "probability(1)".

(** [result.result.predictions['probability(1)']] *)
Definition probability (result : json) : option json :=
  r ← member result "result";
  p ← member r "predictions";
  member p "probability(1)".

(** The callback given to [then], lines 474-500. *)
Definition on_result (result : json) : Async string :=
  if Json.ToBoolean (predictions result) then
    console_log [str "---y"; predictions result] (
    c ← eval (p ← chained_probability result; Json.gt p highRiskThreshold);
    if c : bool then Return very_high_message
    else
      c1 ← eval (p ← chained_probability result; Json.lt p highRiskThreshold);
      c2 ← (if c1 : bool
            then eval (p ← probability result; Json.gt p mediumRiskThreshold)
            else Return false);
      if c2 : bool then Return high_message
      else
        c ← eval (p ← chained_probability result; Json.gt p lowRiskThreshold);
        if c : bool then Return medium_message
        else
          c ← eval (p ← chained_probability result; Json.le p lowRiskThreshold);
          if c : bool then Return low_message
          else Return no_results)
  else Return no_results.

Definition getMLRiskScore (params : list prim) : Async string :=
  console_log [str "hitting here"; JArr (JPrim <$> params)] (
  let predictionVariables := predictionVariables params in
  iso ← Date_toISOString Return;
  let mlFormattedDate := substring 0 10 iso in
  let modelConfigs :=
    JObj [("modelId", str "hts_xgb_1211_jan_2023");
          ("encounterDate", str mlFormattedDate);
          ("facilityId", str "");
          ("debug", str "true")] in
  response ← fetch url
    {| method := "POST";
       headers := [("Accept", "application/json");
                   ("Content-Type", "application/json");
                   ("Access-Control-Allow-Origin", "*")];
       body := JSON_stringify mlScoringRequestPayload |} Return;
  result ← json_of response;
  on_result result).

End Api.

Export Api.

(** * Vocabulary of the statements *)

Local Open Scope js_scope.
Local Open Scope string_scope.

(** ** Indicator groups

    A group of the feature vector: the position of the parameter it is
    computed from, the values the source compares that parameter with, and
    the indicator properties.  The marital-status group lists the five
    indicators that follow the coded value; [MaritalStatusMinor] follows the
    age instead. *)

Record group : Type := {
  position : nat;
  codes : list prim;
  indicators : list string
}.

Definition gender : group :=
  {| position := 3;
     codes := [Str "M"; Str "F"];
     indicators := ["GenderMale"; "GenderFemale"] |}.

Definition marital_status : group :=
  {| position := 5;
     codes := [Str "5555AAAAAAAAAAAAAAAAAAAAAAAAAAAAAAAA";
               Str "159715AAAAAAAAAAAAAAAAAAAAAAAAAAAAAA";
               Str "1058AAAAAAAAAAAAAAAAAAAAAAAAAAAAAAAA";
               Str "1059AAAAAAAAAAAAAAAAAAAAAAAAAAAAAAAA";
               Str "1057AAAAAAAAAAAAAAAAAAAAAAAAAAAAAAAA"];
     indicators := ["MaritalStatusMarried"; "MaritalStatusDivorced";
                    "MaritalStatusPolygamous"; "MaritalStatusWidowed";
                    "MaritalStatusSingle"] |}.

Definition key_population : group :=
  {| position := 7;
     codes := [Str "164928AAAAAAAAAAAAAAAAAAAAAAAAAAAAAA";
               Str "164929AAAAAAAAAAAAAAAAAAAAAAAAAAAAAA"];
     indicators := ["KeyPopulationTypeGP"; "KeyPopulationTypeSW"] |}.

Definition disability : group :=
  {| position := 4;
     codes := [Str "1066AAAAAAAAAAAAAAAAAAAAAAAAAAAAAAAA";
               Str "1065AAAAAAAAAAAAAAAAAAAAAAAAAAAAAAAA"];
     indicators := ["PatientDisabledNo"; "PatientDisabledDisabled"] |}.

Definition ever_tested : group :=
  {| position := 2;
     codes := [Str "1065AAAAAAAAAAAAAAAAAAAAAAAAAAAAAAAA";
               Str "1066AAAAAAAAAAAAAAAAAAAAAAAAAAAAAAAA"];
     indicators := ["EverTestedForHIVYes"; "EverTestedForHivNo"] |}.

Definition tested_as : group :=
  {| position := 2;
     codes := [Str "164957AAAAAAAAAAAAAAAAAAAAAAAAAAAAAA";
               Str "164958AAAAAAAAAAAAAAAAAAAAAAAAAAAAAA"];
     indicators := ["ClientTestedAsIndividual"; "ClientTestedAsCouple"] |}.

Definition entry_point : group :=
  {| position := 1;
     codes := [num 159940;
               Str "160542AAAAAAAAAAAAAAAAAAAAAAAAAAAAAA";
               Str "160456AAAAAAAAAAAAAAAAAAAAAAAAAAAAAA";
               Str "5485AAAAAAAAAAAAAAAAAAAAAAAAAAAAAAAA";
               Str "159939AAAAAAAAAAAAAAAAAAAAAAAAAAAAAA";
               Str "159938AAAAAAAAAAAAAAAAAAAAAAAAAAAAAA";
               Str "162181AAAAAAAAAAAAAAAAAAAAAAAAAAAAAA";
               Str "5622AAAAAAAAAAAAAAAAAAAAAAAAAAAAAAAA";
               Str "162223AAAAAAAAAAAAAAAAAAAAAAAAAAAAAA";
               Str "160541AAAAAAAAAAAAAAAAAAAAAAAAAAAAAA"];
     indicators := ["EntryPointVCT"; "EntryPointOPD"; "EntryPointMTC";
                    "EntryPointIPD"; "EntryPointMOBILE"; "EntryPointOther";
                    "EntryPointHB"; "EntryPointPEDS"; "EntryPointVMMC";
                    "EntryPointTB"; "EntryPointCCC"; "EntryPointPNS"] |}.

Definition testing_strategy : group :=
  {| position := 10;
     codes := [Str "159938AAAAAAAAAAAAAAAAAAAAAAAAAAAAAA";
               Str "159939AAAAAAAAAAAAAAAAAAAAAAAAAAAAAA";
               Str "164163AAAAAAAAAAAAAAAAAAAAAAAAAAAAAA";
               Str "164953AAAAAAAAAAAAAAAAAAAAAAAAAAAAAA";
               Str "164954AAAAAAAAAAAAAAAAAAAAAAAAAAAAAA";
               Str "164955AAAAAAAAAAAAAAAAAAAAAAAAAAAAAA"];
     indicators := ["TestingStrategyVCT"; "TestingStrategyHB";
                    "TestingStrategyMOBILE"; "TestingStrategyHP";
                    "TestingStrategyNP"] |}.

Definition tb_screening : group :=
  {| position := 9;
     codes := [Str "1660AAAAAAAAAAAAAAAAAAAAAAAAAAAAAAAA";
               Str "160737AAAAAAAAAAAAAAAAAAAAAAAAAAAAAA";
               Str "142177AAAAAAAAAAAAAAAAAAAAAAAAAAAAAA";
               Str "1111AAAAAAAAAAAAAAAAAAAAAAAAAAAAAAAA"];
     indicators := ["TBScreeningNoPresumedTB"; "TBScreeningPresumedTB"] |}.

Definition self_tested : group :=
  {| position := 8;
     codes := [Str "1066AAAAAAAAAAAAAAAAAAAAAAAAAAAAAAAA";
               Str "1065AAAAAAAAAAAAAAAAAAAAAAAAAAAAAAAA"];
     indicators := ["ClientSelfTestedNo"; "ClientSelfTestedYes"] |}.



(** The indicators computed from position 2. *)
Definition tested_fields : list string :=
  ["EverTestedForHIVYes"; "EverTestedForHivNo";
   "ClientTestedAsIndividual"; "ClientTestedAsCouple"].

(** All of [keys] are 0 in [fv], but for at most one of them, which is 1. *)
Definition at_most_one_set (fv : object) (keys : list string) : Prop :=
  exists t : option string,
    forall k, k ∈ keys ->
      fv !! k = Some (if decide (t = Some k) then num 1 else num 0).

Definition all_zero (fv : object) (keys : list string) : Prop :=
  forall k, k ∈ keys -> fv !! k = Some (num 0).

(** The parameter of the group is loosely equal to none of its codes. *)
Definition unrecognized (g : group) (params : list prim) : Prop :=
  Forall (fun c => (params.[position g] == c) = false) (codes g).

Definition group_ok (params : list prim) (g : group) : Prop :=
  at_most_one_set (predictionVariables params) (indicators g)
  /\ (unrecognized g params ->
      all_zero (predictionVariables params) (indicators g)).

(** No conversion assigns [k]. *)
Definition untouched (k : string) : Prop := forall c, k ∉ targets c.

(** Two parameter lists that differ at most in the age, position 0. *)
Definition agree_but_age (params params' : list prim) : Prop :=
  forall i : nat, i <> 0%nat -> params'.[i] = params.[i].

(** The concept identifier of VCT in the long form of the other codes. *)
Definition long_form_VCT : string := "159940AAAAAAAAAAAAAAAAAAAAAAAAAAAAAA".

(** ** Sample inputs *)

(** A married client aged 10. *)
Definition married_child : list prim :=
  [num 10; Undefined; Undefined; Undefined; Undefined;
   Str "5555AAAAAAAAAAAAAAAAAAAAAAAAAAAAAAAA"].

(** A male client aged 30 who entered through VCT, the entry point given in
    the long form; and the same client aged 12. *)
Definition adult_at_VCT : list prim :=
  [num 30; Str long_form_VCT; Str "1065AAAAAAAAAAAAAAAAAAAAAAAAAAAAAAAA";
   Str "M"; Str "1066AAAAAAAAAAAAAAAAAAAAAAAAAAAAAAAA";
   Str "1057AAAAAAAAAAAAAAAAAAAAAAAAAAAAAAAA"; num 7;
   Str "164928AAAAAAAAAAAAAAAAAAAAAAAAAAAAAA";
   Str "1066AAAAAAAAAAAAAAAAAAAAAAAAAAAAAAAA";
   Str "1660AAAAAAAAAAAAAAAAAAAAAAAAAAAAAAAA";
   Str "164954AAAAAAAAAAAAAAAAAAAAAAAAAAAAAA"].

Definition child_at_VCT : list prim := num 12 :: tail adult_at_VCT.

(** The same client, the entry point given as the number. *)
Definition adult_at_VCT_numeric : list prim :=
  [num 30; num 159940; Str "1065AAAAAAAAAAAAAAAAAAAAAAAAAAAAAAAA"; Str "M"].

(** ** The scoring call as its caller sees it *)

(** A response body with the probability [p] at the path the function
    reads. *)
Definition scoring_response (p : json) : json :=
  JObj [("result", JObj [("predictions", JObj [("probability(1)", p)])])].

(** A host whose clock shows [iso] and whose network gives every request
    the same answer. *)
Definition answering (iso : string) (answer : option Response) : Host :=
  {| clock := iso; network := fun _ _ => answer |}.

(** How the promise of [getMLRiskScore(params)] settles when the endpoint
    answers with a body that parses to [result]. *)
Definition settles (params : list prim) (iso : string) (result : json)
  : settled string :=
  outcome (run (answering iso (Some {| parsed := Some result |}))
               (getMLRiskScore params)).

(** The one request the function sends. *)
Definition request : string * RequestInit :=
  (url,
   {| method := "POST";
      headers := [("Accept", "application/json");
                  ("Content-Type", "application/json");
                  ("Access-Control-Allow-Origin", "*")];
      body := JSON_stringify mlScoringRequestPayload |}).

(** A computation that sends no request. *)
Fixpoint no_fetch {A : Type} (m : Async A) : Prop :=
  match m with
  | Return _ | Throw _ => True
  | console_log _ k => no_fetch k
  | Date_toISOString k => forall d, no_fetch (k d)
  | fetch _ _ _ => False
  end.

(** The parsed body has the field [result.predictions]. *)
Definition has_predictions (result : json) : Prop :=
  exists props props' v,
    result = JObj props
    /\ own_property props "result" = Some (JObj props')
    /\ own_property props' "predictions" = Some v.

(** The probabilities 0.03, 0.01, 0.005 and 0.001. *)
Definition number_0_03 : number := of_decimal false 3 (-2).
Definition number_0_01 : number := of_decimal false 1 (-2).
Definition number_0_005 : number := of_decimal false 5 (-3).
Definition number_0_001 : number := of_decimal false 1 (-3).

Definition messages : list string :=
  [very_high_message; high_message; medium_message; low_message; no_results].

Definition a_date : string := "2023-03-15T09:30:00.000Z".

(** * The other functions of [api.ts]

    The remaining functions call the server through [openmrsFetch] and read
    fields, lengths and elements of the answer; they build their addresses
    with template literals.  Two more conversions of the language come
    first: of a number to its text, and of a value to a string. *)

(** ** Numbers as strings: Number::toString *)

Module NumberToString.

Local Open Scope string_scope.
Local Open Scope Z_scope.

(** The decimal digits of a natural number. *)
Definition decimal (z : Z) : string :=
  NilZero.string_of_uint (N.to_uint (Z.to_N z)).

Fixpoint zeros (n : nat) : string :=
  match n with
  | O => EmptyString
  | S n' => String "0" (zeros n')
  end.

(** The real [m * 2 ^ e] as a fraction. *)
Definition numerator (m : positive) (e : Z) : Z :=
  if 0 <=? e then Z.pos m * 2 ^ e else Z.pos m.
Definition denominator (e : Z) : Z :=
  if 0 <=? e then 1 else 2 ^ (- e).

(** [n / d < 10 ^ p], for [p] of either sign. *)
Definition below_pow10 (n d p : Z) : bool :=
  if 0 <=? p then n <? d * 10 ^ p else n * 10 ^ (- p) <? d.

(** The least [p] from [start] on with [n / d < 10 ^ p]. *)
Fixpoint magnitude_from (fuel : nat) (n d start : Z) : Z :=
  match fuel with
  | O => start
  | S fuel' =>
      if below_pow10 n d start then start
      else magnitude_from fuel' n d (start + 1)
  end.

(** The [p] with [10 ^ (p - 1) <= n / d < 10 ^ p]: the binary logarithm
    places it within two of the start of the search. *)
Definition magnitude (n d : Z) : Z :=
  magnitude_from 6 n d ((Z.log2 n - Z.log2 d) * 30103 / 100000 - 1).

(** The digits [s] and the exponent [p] of a shortest decimal
    [s * 10 ^ (p - k)], [10 ^ (k - 1) <= s < 10 ^ k], that reads back as
    [x = m * 2 ^ e]: for [k] digits the only candidates are the two
    neighbours of [x * 10 ^ (k - p0)]; of two that read back, the nearer to
    [x], and the even one in a tie. *)
Definition candidates (x : number) (n d p0 k : Z) : option (Z * Z) :=
  let scale := k - p0 in
  let num := if 0 <=? scale then n * 10 ^ scale else n in
  let den := if 0 <=? scale then d else d * 10 ^ (- scale) in
  let lo := num / den in
  let hi := lo + 1 in
  let exact (s p : Z) := SFeqb (of_decimal false s (p - k)) x in
  let lo_ok := (10 ^ (k - 1) <=? lo) && exact lo p0 in
  let hi' := if hi =? 10 ^ k then (10 ^ (k - 1), p0 + 1) else (hi, p0) in
  let hi_ok := exact (fst hi') (snd hi') in
  match lo_ok, hi_ok with
  | true, false => Some (lo, p0)
  | false, true => Some hi'
  | true, true =>
      match 2 * (num mod den) ?= den with
      | Lt => Some (lo, p0)
      | Gt => Some hi'
      | Eq => if Z.even lo then Some (lo, p0) else Some hi'
      end
  | false, false => None
  end.

Fixpoint shortest (fuel : nat) (x : number) (n d p0 k : Z) : Z * Z * Z :=
  match fuel with
  | O => (0, p0, k)
  | S fuel' =>
      match candidates x n d p0 k with
      | Some (s, p) => (s, p, k)
      | None => shortest fuel' x n d p0 (k + 1)
      end
  end.

(** Number::toString for a positive finite number, from its digits [s],
    their count [k] and the exponent [p]. *)
Definition layout (s p k : Z) : string :=
  let digits := decimal s in
  if (k <=? p) && (p <=? 21) then
    digits +:+ zeros (Z.to_nat (p - k))
  else if (0 <? p) && (p <=? 21) then
    substring 0 (Z.to_nat p) digits +:+ "."
    +:+ substring (Z.to_nat p) (Z.to_nat (k - p)) digits
  else if (-6 <? p) && (p <=? 0) then
    "0." +:+ zeros (Z.to_nat (- p)) +:+ digits
  else
    let e := p - 1 in
    let exponent := (if 0 <? e then "+" else "-") +:+ decimal (Z.abs e) in
    if k =? 1 then digits +:+ "e" +:+ exponent
    else substring 0 1 digits +:+ "."
         +:+ substring 1 (Z.to_nat (k - 1)) digits +:+ "e" +:+ exponent.

Definition NumberToString (x : number) : string :=
  match x with
  | S754_nan => "NaN"
  | S754_zero _ => "0"
  | S754_infinity s => if s then "-Infinity" else "Infinity"
  | S754_finite sign m e =>
      let n := numerator m e in
      let d := denominator e in
      let '(s, p, k) :=
        shortest 17 (S754_finite false m e) n d (magnitude n d) 1 in
      (if sign then "-" else "") +:+ layout s p k
  end.

End NumberToString.
Export NumberToString.

(** ** Values as strings, properties of values *)

Module Text.

Local Open Scope string_scope.

(** ToString of a value whose conversion does not throw: an array is its
    elements joined by commas, [null] and [undefined] elements left empty;
    an object is ["[object Object]"]. *)
Fixpoint ToString (v : json) : string :=
  match v with
  | JPrim Undefined => "undefined"
  | JPrim Null => "null"
  | JPrim (Bool b) => if b then "true" else "false"
  | JPrim (Num x) => NumberToString x
  | JPrim (Str s) => s
  | JArr items =>
      String.concat ","
        (map (fun x => match x with
                       | JPrim Undefined | JPrim Null => ""
                       | _ => ToString x
                       end) items)
  | JObj _ => "[object Object]"
  end.

(** [`${v}`]: the text of [v], or a TypeError. *)
Definition interpolate (v : json) : option string :=
  if conversion_throws v then None else Some (ToString v).

(** [true] when every character is a decimal digit. *)
Fixpoint all_digits (s : string) : bool :=
  match s with
  | EmptyString => true
  | String c s' =>
      (48 <=? nat_of_ascii c)%nat && (nat_of_ascii c <=? 57)%nat
      && all_digits s'
  end.

(** The index a property name denotes, when it is the canonical text of a
    natural number: digits, with no leading zero but for ["0"] itself. *)
Definition array_index (k : string) : option nat :=
  match k with
  | EmptyString => None
  | String c rest =>
      if all_digits k
         && (negb (Ascii.eqb c "0") || String.eqb rest "")
      then Some (Z.to_nat (fst (fst (digits 10 (list_ascii_of_string k) 0 0))))
      else None
  end.

Definition jlength (n : nat) : json := JPrim (Num (of_Z (Z.of_nat n))).

(** [v[k]] and [v.k] in general: the length and the elements of an array
    and of a string, the own properties of an object; a TypeError ([None])
    on [undefined] and [null].  The names the functions read are no members
    of the built-in prototypes. *)
Definition get (v : json) (k : string) : option json :=
  match v with
  | JPrim Undefined | JPrim Null => None
  | JPrim (Str s) =>
      Some (if String.eqb k "length" then jlength (String.length s)
            else match array_index k with
                 | Some i =>
                     match String.get i s with
                     | Some c => str (String c EmptyString)
                     | None => undefined
                     end
                 | None => undefined
                 end)
  | JPrim (Bool _) | JPrim (Num _) => Some undefined
  | JArr items =>
      Some (if String.eqb k "length" then jlength (length items)
            else match array_index k with
                 | Some i => default undefined (items !! i)
                 | None => undefined
                 end)
  | JObj props => Some (default undefined (own_property props k))
  end.

(** [v === s] for a string [s]. *)
Definition strict_eq_string (v : json) (s : string) : bool :=
  match v with
  | JPrim (Str t) => String.eqb t s
  | _ => false
  end.

(** [v - 1] and the property name it gives as a subscript. *)
Definition minus_one (x : number) : number :=
  SFsub 53 1024 x (of_Z 1).

End Text.

Export Text.


(** ** Calls to the server *)

Module Rest.

Local Open Scope string_scope.

(** An abort controller, by the identity of its signal. *)
Record AbortController : Type := { signal : nat }.

(** The second argument of [openmrsFetch]. *)
Record FetchConfig : Type := {
  config_headers : list (string * string);
  config_method : string;
  config_body : json;
  config_signal : nat
}.

(** What [openmrsFetch] resolves to: a response with the parsed body as
    [data]. *)
Record FetchResponse : Type := { data : json }.

(** A promise: settled, or waiting for the answer to a request. *)
Inductive Promise (A : Type) : Type :=
| resolve (a : A)
| reject (e : error)
| openmrsFetch (url : string) (config : option FetchConfig)
               (k : FetchResponse -> Promise A).

Arguments resolve {A} a.
Arguments reject {A} e.
Arguments openmrsFetch {A} url config k.

(** [p.then(f)], and [await p] followed by [f]. *)
Fixpoint and_then {A B : Type} (p : Promise A) (f : A -> Promise B) : Promise B :=
  match p with
  | resolve a => f a
  | reject e => reject e
  | openmrsFetch url config k => openmrsFetch url config (fun r => and_then (k r) f)
  end.

(** The outcome of a callback or of a step of an [async] function: its
    value, or the rejection a TypeError thrown in it becomes. *)
Definition settle {A : Type} (r : option A) : Promise A :=
  match r with
  | Some a => resolve a
  | None => reject TypeError
  end.

(** The result of calling a function that is not [async]: it throws, or
    returns its promise. *)
Inductive call (A : Type) : Type :=
| threw (e : error)
| returned (p : Promise A).

Arguments threw {A} e.
Arguments returned {A} p.

(** The server: it answers a request, or the request fails. *)
Definition Server : Type := string -> option FetchConfig -> option FetchResponse.

Record history (A : Type) : Type := {
  sent : list (string * option FetchConfig);
  result : settled A
}.

Arguments sent {A} h.
Arguments result {A} h.

Fixpoint perform {A : Type} (server : Server) (p : Promise A) : history A :=
  match p with
  | resolve a => {| sent := []; result := Fulfilled a |}
  | reject e => {| sent := []; result := Rejected e |}
  | openmrsFetch url config k =>
      match server url config with
      | Some response =>
          let h := perform server (k response) in
          {| sent := (url, config) :: sent h; result := result h |}
      | None => {| sent := [(url, config)]; result := Rejected NetworkError |}
      end
  end.

(** An optional string argument: whether it is truthy, and its text. *)
Definition given (o : option string) : bool :=
  match o with
  | Some s => negb (String.eqb s "")
  | None => false
  end.

Definition text (o : option string) : string := default "undefined" o.

Definition null : json := JPrim Null.

(** [saveEncounter], lines 8-18. *)
Definition saveEncounter (abortController : AbortController) (payload : json)
    (encounterUuid : option string) : Promise FetchResponse :=
  let url :=
    if given encounterUuid
    then "/ws/rest/v1/encounter/" +:+ text encounterUuid +:+ "?v=full"
    else "/ws/rest/v1/encounter?v=full" in
  openmrsFetch url
    (Some {| config_headers := [("Content-Type", "application/json")];
             config_method := "POST";
             config_body := payload;
             config_signal := signal abortController |})
    resolve.

(** [fetchConceptNameByUuid], lines 37-44: a function without a [return]
    on a path gives [undefined] there. *)
Definition fetchConceptNameByUuid (conceptUuid : string) : Promise json :=
  and_then
    (openmrsFetch ("/ws/rest/v1/concept/" +:+ conceptUuid +:+ "/name?limit=1")
                  None resolve)
    (fun response =>
       settle (
         results ← get (data response) "results";
         len ← get results "length";
         if Json.ToBoolean len then
           results ← get (data response) "results";
           results' ← get (data response) "results";
           len' ← get results' "length";
           n ← Json.ToNumber len';
           concept ← get results (NumberToString (minus_one n));
           get concept "display"
         else Some undefined)).

(** [getLatestObs], lines 46-55. *)
Definition getLatestObs (patientUuid conceptUuid : string)
    (encounterTypeUuid : option string) : Promise json :=
  let params :=
    "patient=" +:+ patientUuid +:+ "&code=" +:+ conceptUuid
    +:+ (if given encounterTypeUuid
         then "&encounter.type=" +:+ text encounterTypeUuid
         else "") in
  let params := params +:+ "&_sort=-_lastUpdated&_count=1" in
  and_then
    (openmrsFetch ("/ws/fhir2/R4/Observation?" +:+ params) None resolve)
    (fun response =>
       settle (
         entry ← get (data response) "entry";
         len ← (if Json.nullish entry then Some undefined
                else get entry "length");
         if Json.ToBoolean len then
           entry ← get (data response) "entry";
           first ← get entry "0";
           get first "resource"
         else Some null)).

(** What [fetchOpenMRSForm] resolves to: a value of the answer, or an
    [Error] object with its message. *)
Inductive form_or_error : Type :=
| Value (v : json)
| Error_object (message : string).

(** [Array.prototype.find] with the callback
    [({ name }) => name === 'JSON schema']: the first element whose [name]
    is that string, [undefined] when there is none; destructuring an
    element that is [null] throws. *)
Fixpoint find_JSON_schema (items : list json) : option json :=
  match items with
  | [] => Some undefined
  | x :: rest =>
      match get x "name" with
      | None => None
      | Some name =>
          if strict_eq_string name "JSON schema" then Some x
          else find_JSON_schema rest
      end
  end.

(** [resources.find(...)]: only an array has the method. *)
Definition find_resource (resources : json) : option json :=
  match resources with
  | JArr items => find_JSON_schema items
  | JPrim _ | JObj _ => None
  end.

(** [fetchClobData], lines 85-99. *)
Definition fetchClobData (form : json) : Promise json :=
  if negb (Json.ToBoolean form) then resolve null
  else
    and_then
      (settle (resources ← get form "resources"; find_resource resources))
      (fun jsonSchemaResource =>
         if negb (Json.ToBoolean jsonSchemaResource) then resolve null
         else
           and_then
             (settle (valueReference ← get jsonSchemaResource "valueReference";
                      interpolate valueReference))
             (fun reference =>
                let clobDataUrl := "/ws/rest/v1/clobdata/" +:+ reference in
                and_then (openmrsFetch clobDataUrl None resolve)
                  (fun response => resolve (data response)))).

(** Two names the file imports from modules that are not among the
    sources: the constant [encounterRepresentation] of ['../constants'] and
    the predicate [isUuid] of ['../utils/boolean-utils']. *)
Section Imported.

Variable encounterRepresentation : string.
Variable isUuid : string -> bool.

(** [getPreviousEncounter], lines 30-35.  [encounterType] has no declared
    type; its text is taken when the query is built, before the request. *)
Definition getPreviousEncounter (patientUuid : string) (encounterType : json)
  : call json :=
  match interpolate encounterType with
  | None => threw TypeError
  | Some type =>
      let query := "encounterType=" +:+ type +:+ "&patient=" +:+ patientUuid in
      returned (
        and_then
          (openmrsFetch ("/ws/rest/v1/encounter?" +:+ query +:+ "&limit=1&v="
                         +:+ encounterRepresentation) None resolve)
          (fun response =>
             settle (
               results ← get (data response) "results";
               len ← get results "length";
               if Json.ToBoolean len then
                 results ← get (data response) "results";
                 get results "0"
               else Some null)))
  end.

(** [fetchOpenMRSForm], lines 62-78. *)
Definition fetchOpenMRSForm (nameOrUUID : string) : Promise form_or_error :=
  if String.eqb nameOrUUID "" then resolve (Value null)
  else
    let '(url, isUUID) :=
      if isUuid nameOrUUID
      then ("/ws/rest/v1/form/" +:+ nameOrUUID +:+ "?v=full", true)
      else ("/ws/rest/v1/form?q=" +:+ nameOrUUID +:+ "&v=full", false) in
    and_then (openmrsFetch url None resolve)
      (fun response =>
         let openmrsFormResponse := data response in
         if isUUID : bool then resolve (Value openmrsFormResponse)
         else
           settle (
             results ← get openmrsFormResponse "results";
             len ← (if Json.nullish results then Some undefined
                    else get results "length");
             if Json.ToBoolean len then
               results ← get openmrsFormResponse "results";
               first ← get results "0";
               Some (Value first)
             else
               Some (Error_object
                       ("Form with " +:+ nameOrUUID +:+ " was not found")))).

End Imported.

End Rest.

(** ** Vocabulary of the statements about the rest of [getMLRiskScore] *)

(** The property names of the object literal, lines 110-148. *)
Definition schema : list string :=
  ["AgeAtTest"; "MonthsSinceLastTest"; "GenderMale"; "GenderFemale";
   "KeyPopulationTypeGP"; "KeyPopulationTypeSW"; "MaritalStatusMarried";
   "MaritalStatusDivorced"; "MaritalStatusPolygamous";
   "MaritalStatusWidowed"; "MaritalStatusSingle"; "MaritalStatusMinor";
   "PatientDisabledNo"; "PatientDisabledDisabled"; "EverTestedForHIVYes";
   "EverTestedForHivNo"; "ClientTestedAsIndividual"; "ClientTestedAsCouple";
   "EntryPointVCT"; "EntryPointOPD"; "EntryPointMTC"; "EntryPointIPD";
   "EntryPointMOBILE"; "EntryPointOther"; "EntryPointHB"; "EntryPointPEDS";
   "EntryPointVMMC"; "EntryPointTB"; "EntryPointCCC"; "EntryPointPNS";
   "TestingStrategyVCT"; "TestingStrategyHB"; "TestingStrategyMOBILE";
   "TestingStrategyHP"; "TestingStrategyNP"; "TBScreeningNoPresumedTB";
   "TBScreeningPresumedTB"; "ClientSelfTestedNo"; "ClientSelfTestedYes"].

(** The message for a probability that reads as the number [x]: the chain
    of comparisons of lines 477-497 on a number. *)
Definition tier (x : number) : string :=
  if default false (lessThan highRiskThreshold x) then very_high_message
  else if default false (lessThan x highRiskThreshold)
          && default false (lessThan mediumRiskThreshold x)
  then high_message
  else if default false (lessThan lowRiskThreshold x) then medium_message
  else if default false (negb <$> lessThan lowRiskThreshold x)
  then low_message
  else no_results.

(** The arguments of the first [console.log], line 103. *)
Definition first_log (params : list prim) : list json :=
  [str "hitting here"; JArr (JPrim <$> params)].


(** ** Vocabulary of the statements about the other functions *)

(** A server that gives every request the answer [d]. *)
Definition answers (d : json) : Rest.Server :=
  fun _ _ => Some {| Rest.data := d |}.

(** The configuration [saveEncounter] passes to [openmrsFetch]. *)
Definition save_config (abortController : Rest.AbortController) (payload : json)
  : Rest.FetchConfig :=
  {| Rest.config_headers := [("Content-Type", "application/json")];
     Rest.config_method := "POST";
     Rest.config_body := payload;
     Rest.config_signal := Rest.signal abortController |}.

(** An element of [resources] that [find] passes over: it can be
    destructured and its [name] is not ['JSON schema']. *)
Definition not_JSON_schema (x : json) : Prop :=
  exists name, get x "name" = Some name
               /\ strict_eq_string name "JSON schema" = false.

(** The subscript [length - 1] of an array of [n + 1] elements names its
    last index. *)
Definition last_index_ok (n : nat) : bool :=
  match Json.ToNumber (jlength (S n)) with
  | Some x => bool_decide (array_index (NumberToString (minus_one x)) = Some n)
  | None => false
  end.

(** Sample answers and arguments. *)
Definition two_names : json :=
  JObj [("results", JArr [JObj [("display", str "Weight")];
                          JObj [("display", str "Weight (kg)")]])].

Definition form_with_schema : json :=
  JObj [("resources",
         JArr [JObj [("name", str "Translations"); ("valueReference", str "r-1")];
               JObj [("name", str "JSON schema"); ("valueReference", str "r-2")];
               JObj [("name", str "JSON schema"); ("valueReference", str "r-3")]])].

Definition a_controller : Rest.AbortController := {| Rest.signal := 7 |}.

(** A server that cannot be reached: every request fails. *)
Definition unreachable : Rest.Server := fun _ _ => None.

(** * Tactics *)

Ltac unfold_conversions :=
  unfold convert_marital_status, convert_minor, convert_population_type,
    convert_disability_status, convert_ever_tested, convert_tested_as,
    convert_entry_point, convert_strategy, convert_self_test,
    convert_tb_screening.

Ltac solve_elem_of :=
  solve [repeat first [ apply list_elem_of_here | apply list_elem_of_further ]].

Ltac solve_not_elem_of :=
  repeat (apply not_elem_of_cons; split; [discriminate|]); apply not_elem_of_nil.

Ltac unfold_groups H :=
  cbn [codes position indicators gender marital_status key_population
       disability ever_tested tested_as entry_point testing_strategy
       tb_screening self_tested] in H.

Ltac solve_untouched :=
  let c := fresh in intros c; destruct c; cbn [targets]; solve_not_elem_of.

Ltac solve_keys :=
  let k := fresh in let Hk := fresh in
  intros k Hk; unfold_groups Hk; set_unfold in Hk; destruct_or?; subst;
  first [ done
        | left; cbn [targets]; solve_elem_of
        | right; split; [solve_untouched | reflexivity] ].

Ltac rewrite_unrecognized H :=
  unfold unrecognized in H; unfold_groups H;
  repeat (apply Forall_cons_1 in H as [? H]);
  cbn [convert]; unfold_conversions;
  repeat match goal with
         | E : (_ == _) = false |- _ => rewrite E; clear E
         end;
  reflexivity.

(** The value of a key of a group of indicators is 0 or 1; [G] is the
    statement of the group's conversion step. *)
Ltac bit_of_group G :=
  let t := fresh "t" in let L := fresh "L" in
  destruct G as (t & _ & _ & L);
  rewrite L by (cbn [targets]; solve_elem_of);
  case_decide; [by right | by left].

(** * Properties *)

(** ** Number literals

    The literals of the source denote the binary64 values the Standard
    Library's parser of floating-point literals gives them. *)

#[local] Set Warnings "-inexact-float".

Lemma literals_binary64 :
  Prim2SF 0.002625179%float = lowRiskThreshold
  /\ Prim2SF 0.010638781%float = mediumRiskThreshold
  /\ Prim2SF 0.028924102%float = highRiskThreshold
  /\ Prim2SF 0.03%float = number_0_03
  /\ Prim2SF 0.01%float = number_0_01
  /\ Prim2SF 0.005%float = number_0_005
  /\ Prim2SF 0.001%float = number_0_001
  /\ Prim2SF 15%float = of_Z 15
  /\ Prim2SF 159940%float = of_Z 159940.
Proof. repeat split; vm_compute; reflexivity. Qed.

(** So do their texts in a response body. *)
Lemma threshold_texts :
  StringToNumber "0.002625179" = lowRiskThreshold
  /\ StringToNumber "0.010638781" = mediumRiskThreshold
  /\ StringToNumber "0.028924102" = highRiskThreshold.
Proof. repeat split; vm_compute; reflexivity. Qed.

(** The thresholds are strictly ordered. *)
Lemma thresholds_ordered :
  lessThan lowRiskThreshold mediumRiskThreshold = Some true
  /\ lessThan mediumRiskThreshold highRiskThreshold = Some true.
Proof. split; vm_compute; reflexivity. Qed.

(** ** Loose equality with a coded identifier *)

Lemma equal_NaN_r (x : number) : equal x NaN = false.
Proof. by destruct x. Qed.

(** A string that is no numeric literal is loosely equal to itself alone. *)
Lemma loose_eq_code (v : prim) (c : string) :
  StringToNumber c = NaN -> (v == Str c) = true -> v = Str c.
Proof.
  intros Hc. destruct v as [| |b|x|s]; cbn.
  - discriminate.
  - discriminate.
  - rewrite Hc, equal_NaN_r. discriminate.
  - rewrite Hc, equal_NaN_r. discriminate.
  - intros H. apply String.eqb_eq in H. by subst.
Qed.

Lemma loose_eq_other_code (v : prim) (c : string) :
  StringToNumber c = NaN -> v <> Str c -> (v == Str c) = false.
Proof.
  intros Hc Hv. destruct (v == Str c) eqn:E; [|done].
  by apply loose_eq_code in E.
Qed.

(** The long form of the VCT identifier is not a numeric literal, so it is
    not loosely equal to the number 159940; the digits alone are. *)
Lemma long_form_VCT_not_numeric :
  StringToNumber long_form_VCT = NaN
  /\ (Str long_form_VCT == num 159940) = false
  /\ (Str "159940" == num 159940) = true.
Proof. repeat split; vm_compute; reflexivity. Qed.

(** ** The conversions, one by one *)

Lemma predictionVariables_unfold (params : list prim) :
  predictionVariables params
  = convert TbScreening params (convert SelfTest params
      (convert Strategy params (convert EntryPoint params
        (convert TestedAs params (convert EverTested params
          (convert DisabilityStatus params (convert PopulationType params
            (convert Minor params (convert MaritalStatus params
              (initial params)))))))))).
Proof. unfold predictionVariables, convert. reflexivity. Qed.

Lemma one_not_zero : num 1 <> num 0.
Proof. vm_compute. discriminate. Qed.

(** An assignment that changes nothing on an object where its target is 0
    is no assignment. *)
Lemma assign_fixed (t : option string) (pv : object) :
  assign t pv = pv ->
  (forall k, t = Some k -> pv !! k = Some (num 0)) ->
  t = None.
Proof.
  destruct t as [k|]; [|done]. cbn [assign]. intros E H. exfalso.
  apply (f_equal (fun m : object => m !! k)) in E.
  rewrite lookup_insert_eq, (H k eq_refl) in E.
  apply one_not_zero. congruence.
Qed.

(** A conversion assigns 1 to one of its targets, or nothing. *)
Lemma convert_shape (c : conversion) (params : list prim) :
  exists t : option string,
    (forall k, t = Some k -> k ∈ targets c)
    /\ forall pv, convert c params pv = assign t pv.
Proof.
  destruct c; cbn [convert targets]; unfold_conversions;
    repeat match goal with
           | |- context [if ?b then _ else _] => destruct b
           end;
    first [ eexists (Some _); split; [|reflexivity];
            intros ? [= <-]; solve_elem_of
          | exists None; split; [intros ? [=] | reflexivity] ].
Qed.

(** A conversion leaves the properties that are not its own alone. *)
Lemma convert_frame (c : conversion) (params : list prim) (pv : object) (k : string) :
  k ∉ targets c -> convert c params pv !! k = pv !! k.
Proof.
  intros Hk. destruct (convert_shape c params) as (t & Ht & ->).
  destruct t as [k'|]; cbn; [|done].
  apply lookup_insert_ne. intros ->. by apply Hk, Ht.
Qed.

(** What a conversion does to a property does not depend on the others. *)
Lemma convert_congr (c : conversion) (params : list prim) (pv pv' : object) (k : string) :
  pv !! k = pv' !! k -> convert c params pv !! k = convert c params pv' !! k.
Proof.
  intros E. destruct (convert_shape c params) as (t & _ & H). rewrite !H.
  destruct t as [k'|]; cbn; [|done].
  destruct (decide (k' = k)) as [->|];
    by rewrite ?lookup_insert_eq, ?lookup_insert_ne.
Qed.

Lemma not_target (c : conversion) (t : option string) (k : string) :
  (forall k', t = Some k' -> k' ∈ targets c) -> k ∉ targets c -> t <> Some k.
Proof. intros Ht Hk E. by apply Hk, Ht. Qed.

(** A property is decided by the one conversion that owns it. *)
Lemma lookup_own (c : conversion) (params : list prim) (k : string) :
  k ∈ targets c ->
  predictionVariables params !! k = convert c params (initial params) !! k.
Proof.
  rewrite predictionVariables_unfold.
  destruct c; cbn [targets]; intros Hk; set_unfold in Hk; destruct_or?; subst;
    try done.
  all: repeat match goal with
              | |- convert ?c _ _ !! _ = convert ?c _ _ !! _ =>
                  apply convert_congr
              | |- convert ?c ?p ?pv !! ?k = _ =>
                  rewrite (convert_frame c p pv k)
                    by (cbn [targets]; solve_not_elem_of)
              end;
    reflexivity.
Qed.

(** A property no conversion owns keeps the value of the object literal. *)
Lemma lookup_untouched (params : list prim) (k : string) :
  untouched k -> predictionVariables params !! k = initial params !! k.
Proof.
  intros H. rewrite predictionVariables_unfold.
  repeat match goal with
         | |- convert ?c ?p ?pv !! ?k = _ =>
             rewrite (convert_frame c p pv k) by done
         end.
  reflexivity.
Qed.

Lemma initial_target (c : conversion) (params : list prim) (k : string) :
  k ∈ targets c -> initial params !! k = Some (num 0).
Proof.
  destruct c; cbn [targets]; intros Hk; set_unfold in Hk; destruct_or?; subst;
    try done; reflexivity.
Qed.

(** The properties of one conversion: all 0, but for the one it assigned. *)
Lemma conversion_group (c : conversion) (params : list prim) :
  exists t : option string,
    (forall k, t = Some k -> k ∈ targets c)
    /\ (forall pv, convert c params pv = assign t pv)
    /\ forall k, k ∈ targets c ->
        predictionVariables params !! k
        = Some (if decide (t = Some k) then num 1 else num 0).
Proof.
  destruct (convert_shape c params) as (t & Ht & H).
  exists t. split; [done|]. split; [done|]. intros k Hk.
  rewrite (lookup_own c) by done. rewrite H.
  destruct t as [k'|]; cbn.
  - case_decide as E.
    + injection E as ->. apply lookup_insert_eq.
    + rewrite lookup_insert_ne by congruence. by eapply initial_target.
  - case_decide; [done|]. by eapply initial_target.
Qed.

(** ** Groups *)

Lemma at_most_one_conversion (c : conversion) (params : list prim) (keys : list string) :
  (forall k, k ∈ keys ->
     k ∈ targets c \/ (untouched k /\ initial params !! k = Some (num 0))) ->
  at_most_one_set (predictionVariables params) keys.
Proof.
  intros Hkeys. destruct (conversion_group c params) as (t & Ht & _ & H).
  exists t. intros k Hk. destruct (Hkeys k Hk) as [Hc|[Hu H0]]; [by apply H|].
  rewrite lookup_untouched, H0 by done.
  case_decide as E; [|done]. apply Ht in E. by destruct (Hu c).
Qed.

Lemma all_zero_conversion (c : conversion) (params : list prim) (keys : list string) :
  (forall k, k ∈ keys ->
     k ∈ targets c \/ (untouched k /\ initial params !! k = Some (num 0))) ->
  convert c params (initial params) = initial params ->
  all_zero (predictionVariables params) keys.
Proof.
  intros Hkeys Hid k Hk. destruct (Hkeys k Hk) as [Hc|[Hu H0]].
  - rewrite (lookup_own c), Hid by done. by eapply initial_target.
  - by rewrite lookup_untouched.
Qed.

(** A group whose indicators are targets of one conversion, or assigned by
    none, and on which that conversion does nothing when the parameter is
    not recognized. *)
Lemma conversion_group_ok (c : conversion) (g : group) (params : list prim) :
  (forall k, k ∈ indicators g ->
     k ∈ targets c \/ (untouched k /\ initial params !! k = Some (num 0))) ->
  (unrecognized g params ->
   convert c params (initial params) = initial params) ->
  group_ok params g.
Proof.
  intros Hkeys Hid. split.
  - by apply (at_most_one_conversion c).
  - intros H. apply (all_zero_conversion c); auto.
Qed.

(** The two gender indicators are set in the object literal. *)
Lemma gender_lookup (params : list prim) :
  predictionVariables params !! "GenderMale"
  = Some (if params.[3] == Str "M" then num 1 else num 0)
  /\ predictionVariables params !! "GenderFemale"
     = Some (if params.[3] == Str "F" then num 1 else num 0).
Proof.
  split; (rewrite lookup_untouched; [reflexivity | solve_untouched]).
Qed.







Lemma entry_point_ok (params : list prim) : group_ok params entry_point.
Proof.
  apply (conversion_group_ok EntryPoint); [solve_keys|].
  intros H. rewrite_unrecognized H.
Qed.




(** ** The feature encoder *)




(** C6 at the failing input: when the entry point is the long form of the
    VCT identifier, [EntryPointVCT] stays 0, and so does every other
    entry-point indicator, whatever the other parameters are. *)
Theorem long_form_VCT_not_recognized (age : prim) (rest : list prim) :
  predictionVariables (age :: Str long_form_VCT :: rest) !! "EntryPointVCT"
  = Some (num 0)
  /\ all_zero (predictionVariables (age :: Str long_form_VCT :: rest))
              (indicators entry_point).
Proof.
  assert (all_zero (predictionVariables (age :: Str long_form_VCT :: rest))
                   (indicators entry_point)) as H.
  { apply entry_point_ok. unfold unrecognized.
    cbn [codes position entry_point element lookup list_lookup default
         from_option id].
    repeat apply Forall_cons_2; [..|apply Forall_nil_2];
      vm_compute; reflexivity. }
  split; [|exact H]. apply H. cbn [indicators entry_point]. solve_elem_of.
Qed.

(** The part of C6 that holds: when the entry point is loosely equal to the
    number 159940 (the number itself, or a string that reads as it),
    [EntryPointVCT] is 1 and every other entry-point indicator is 0. *)
Lemma numeric_VCT_code_recognized (params : list prim) :
  (params.[1] == num 159940) = true ->
  predictionVariables params !! "EntryPointVCT" = Some (num 1)
  /\ forall k, k ∈ indicators entry_point -> k <> "EntryPointVCT" ->
       predictionVariables params !! k = Some (num 0).
Proof.
  intros H.
  assert (convert EntryPoint params (initial params)
          = <["EntryPointVCT" := num 1]> (initial params)) as E.
  { cbn [convert]. unfold convert_entry_point. by rewrite H. }
  split.
  - rewrite (lookup_own EntryPoint), E by (cbn [targets]; solve_elem_of).
    apply lookup_insert_eq.
  - intros k Hk Hne. unfold_groups Hk. set_unfold in Hk.
    destruct_or?; subst; try done;
      first [ rewrite (lookup_own EntryPoint), E
                by (cbn [targets]; solve_elem_of);
              by rewrite lookup_insert_ne
            | rewrite lookup_untouched by solve_untouched; reflexivity ].
Qed.

Lemma numeric_VCT_code_recognized_witness :
  predictionVariables adult_at_VCT_numeric !! "EntryPointVCT" = Some (num 1)
  /\ predictionVariables adult_at_VCT_numeric !! "EntryPointOPD" = Some (num 0).
Proof.
  destruct (numeric_VCT_code_recognized adult_at_VCT_numeric) as [H1 H2].
  { vm_compute. reflexivity. }
  split; [exact H1|].
  apply H2; [cbn [indicators entry_point]; solve_elem_of | discriminate].
Defined.

(** C7: when the age, position 0, is less than 15 by the numeric comparison
    of the source, [MaritalStatusMinor] is 1, whatever the marital-status
    code at position 5 and the other parameters are. *)
Theorem minor_flag_from_age (params : list prim) :
  (params.[0] < num 15) = true ->
  predictionVariables params !! "MaritalStatusMinor" = Some (num 1).
Proof.
  intros H. rewrite (lookup_own Minor) by (cbn [targets]; solve_elem_of).
  cbn [convert]. unfold convert_minor. rewrite H. apply lookup_insert_eq.
Qed.

Lemma minor_flag_from_age_witness :
  predictionVariables married_child !! "MaritalStatusMinor" = Some (num 1).
Proof. apply minor_flag_from_age. vm_compute. reflexivity. Defined.

(** C8: when the gender, position 3, is the string M, [GenderMale] is 1 and
    [GenderFemale] is 0; when it is F, [GenderFemale] is 1 and [GenderMale]
    is 0; for every other value both are 0. *)
Theorem gender_indicators (params : list prim) :
  (params.[3] = Str "M" ->
     predictionVariables params !! "GenderMale" = Some (num 1)
     /\ predictionVariables params !! "GenderFemale" = Some (num 0))
  /\ (params.[3] = Str "F" ->
        predictionVariables params !! "GenderFemale" = Some (num 1)
        /\ predictionVariables params !! "GenderMale" = Some (num 0))
  /\ (params.[3] <> Str "M" -> params.[3] <> Str "F" ->
        predictionVariables params !! "GenderMale" = Some (num 0)
        /\ predictionVariables params !! "GenderFemale" = Some (num 0)).
Proof.
  destruct (gender_lookup params) as [-> ->].
  split; [|split].
  - intros ->. by split.
  - intros ->. by split.
  - intros HM HF. by rewrite !loose_eq_other_code.
Qed.

Lemma gender_indicators_witness :
  predictionVariables adult_at_VCT !! "GenderMale" = Some (num 1)
  /\ predictionVariables adult_at_VCT !! "GenderFemale" = Some (num 0).
Proof.
  destruct (gender_indicators adult_at_VCT) as (H & _ & _).
  apply H. reflexivity.
Defined.

(** Only the age conversion reads position 0. *)
Lemma initial_but_age (params params' : list prim) :
  agree_but_age params params' -> initial params' = initial params.
Proof. intros H. unfold initial. by rewrite !H. Qed.

Lemma convert_but_age (c : conversion) (params params' : list prim) (pv : object) :
  agree_but_age params params' -> c <> Minor ->
  convert c params' pv = convert c params pv.
Proof.
  intros H Hc. destruct c; try done; cbn [convert]; unfold_conversions;
    by rewrite !H.
Qed.

(** C9: [AgeAtTest] is 0 for every parameter list; and two parameter lists
    that differ only in the age, position 0, give the same value to every
    property other than [MaritalStatusMinor]. *)
Theorem age_only_sets_minor (params : list prim) :
  predictionVariables params !! "AgeAtTest" = Some (num 0)
  /\ forall params' : list prim, agree_but_age params params' ->
       forall k : string, k <> "MaritalStatusMinor" ->
         predictionVariables params' !! k = predictionVariables params !! k.
Proof.
  split.
  - rewrite lookup_untouched by solve_untouched. reflexivity.
  - intros params' H k Hk. rewrite !predictionVariables_unfold.
    repeat (rewrite (convert_but_age _ params params') by done;
            apply convert_congr).
    rewrite !(convert_frame Minor)
      by (cbn [targets]; apply not_elem_of_cons; split;
          [done|apply not_elem_of_nil]).
    rewrite (convert_but_age _ params params') by done.
    apply convert_congr. by rewrite (initial_but_age params params').
Qed.

Lemma age_only_sets_minor_witness :
  predictionVariables child_at_VCT !! "AgeAtTest" = Some (num 0)
  /\ predictionVariables child_at_VCT !! "MaritalStatusSingle"
     = predictionVariables adult_at_VCT !! "MaritalStatusSingle".
Proof.
  split.
  - exact (proj1 (age_only_sets_minor child_at_VCT)).
  - apply (proj2 (age_only_sets_minor adult_at_VCT)); [|discriminate].
    intros [|i] Hi; [done | reflexivity].
Defined.

(** The two conversions that read position 2 never both assign. *)
Lemma tested_exclusive (params : list prim) :
  convert EverTested params (initial params) = initial params
  \/ convert TestedAs params (initial params) = initial params.
Proof.
  cbn [convert]. unfold convert_ever_tested, convert_tested_as.
  destruct (params.[2] == Str "1065AAAAAAAAAAAAAAAAAAAAAAAAAAAAAAAA") eqn:E1;
    [apply loose_eq_code in E1; [|reflexivity]; rewrite E1; by right|].
  destruct (params.[2] == Str "1066AAAAAAAAAAAAAAAAAAAAAAAAAAAAAAAA") eqn:E2;
    [apply loose_eq_code in E2; [|reflexivity]; rewrite E2; by right|].
  by left.
Qed.

(** Each of the four indicators is 1 exactly when position 2 is loosely
    equal to its own code, in the encoded object and not only after its own
    conversion. *)
Lemma tested_lookup (params : list prim) :
  predictionVariables params !! "EverTestedForHIVYes"
  = Some (if params.[2] == Str "1065AAAAAAAAAAAAAAAAAAAAAAAAAAAAAAAA"
          then num 1 else num 0)
  /\ predictionVariables params !! "EverTestedForHivNo"
     = Some (if params.[2] == Str "1066AAAAAAAAAAAAAAAAAAAAAAAAAAAAAAAA"
             then num 1 else num 0)
  /\ predictionVariables params !! "ClientTestedAsIndividual"
     = Some (if params.[2] == Str "164957AAAAAAAAAAAAAAAAAAAAAAAAAAAAAA"
             then num 1 else num 0)
  /\ predictionVariables params !! "ClientTestedAsCouple"
     = Some (if params.[2] == Str "164958AAAAAAAAAAAAAAAAAAAAAAAAAAAAAA"
             then num 1 else num 0).
Proof.
  rewrite !(lookup_own EverTested) by (cbn [targets]; solve_elem_of).
  rewrite !(lookup_own TestedAs) by (cbn [targets]; solve_elem_of).
  cbn [convert]. unfold convert_ever_tested, convert_tested_as.
  assert (forall k, k ∈ tested_fields -> initial params !! k = Some (num 0))
    as H0 by (intros k Hk; unfold tested_fields in Hk; set_unfold in Hk;
              destruct_or?; subst; try done; reflexivity).
  split; [|split; [|split]].
  - destruct (params.[2] == Str "1065AAAAAAAAAAAAAAAAAAAAAAAAAAAAAAAA");
      [apply lookup_insert_eq|].
    destruct (params.[2] == Str "1066AAAAAAAAAAAAAAAAAAAAAAAAAAAAAAAA");
      [rewrite lookup_insert_ne by done|];
      apply H0; unfold tested_fields; solve_elem_of.
  - destruct (params.[2] == Str "1065AAAAAAAAAAAAAAAAAAAAAAAAAAAAAAAA") eqn:E1.
    + apply loose_eq_code in E1; [|reflexivity]. rewrite E1.
      change (Str "1065AAAAAAAAAAAAAAAAAAAAAAAAAAAAAAAA"
              == Str "1066AAAAAAAAAAAAAAAAAAAAAAAAAAAAAAAA") with false.
      rewrite lookup_insert_ne by done.
      apply H0; unfold tested_fields; solve_elem_of.
    + destruct (params.[2] == Str "1066AAAAAAAAAAAAAAAAAAAAAAAAAAAAAAAA");
        [apply lookup_insert_eq|].
      apply H0; unfold tested_fields; solve_elem_of.
  - destruct (params.[2] == Str "164957AAAAAAAAAAAAAAAAAAAAAAAAAAAAAA");
      [apply lookup_insert_eq|].
    destruct (params.[2] == Str "164958AAAAAAAAAAAAAAAAAAAAAAAAAAAAAA");
      [rewrite lookup_insert_ne by done|];
      apply H0; unfold tested_fields; solve_elem_of.
  - destruct (params.[2] == Str "164957AAAAAAAAAAAAAAAAAAAAAAAAAAAAAA") eqn:E1.
    + apply loose_eq_code in E1; [|reflexivity]. rewrite E1.
      change (Str "164957AAAAAAAAAAAAAAAAAAAAAAAAAAAAAA"
              == Str "164958AAAAAAAAAAAAAAAAAAAAAAAAAAAAAA") with false.
      rewrite lookup_insert_ne by done.
      apply H0; unfold tested_fields; solve_elem_of.
    + destruct (params.[2] == Str "164958AAAAAAAAAAAAAAAAAAAAAAAAAAAAAA");
        [apply lookup_insert_eq|].
      apply H0; unfold tested_fields; solve_elem_of.
Qed.

(** C10: both groups dispatch on position 2.  Each of the four indicators
    [EverTestedForHIVYes], [EverTestedForHivNo], [ClientTestedAsIndividual]
    and [ClientTestedAsCouple] is 1 exactly when position 2 is loosely equal
    to its own code and 0 otherwise; so they are decided by position 2
    alone, and they are all 0 but for at most one, which is 1. *)
Theorem tested_indicators_exclusive (params : list prim) :
  at_most_one_set (predictionVariables params) tested_fields
  /\ (forall params' : list prim, params'.[2] = params.[2] ->
        forall k, k ∈ tested_fields ->
          predictionVariables params' !! k = predictionVariables params !! k)
  /\ predictionVariables params !! "EverTestedForHIVYes"
     = Some (if params.[2] == Str "1065AAAAAAAAAAAAAAAAAAAAAAAAAAAAAAAA"
             then num 1 else num 0)
  /\ predictionVariables params !! "EverTestedForHivNo"
     = Some (if params.[2] == Str "1066AAAAAAAAAAAAAAAAAAAAAAAAAAAAAAAA"
             then num 1 else num 0)
  /\ predictionVariables params !! "ClientTestedAsIndividual"
     = Some (if params.[2] == Str "164957AAAAAAAAAAAAAAAAAAAAAAAAAAAAAA"
             then num 1 else num 0)
  /\ predictionVariables params !! "ClientTestedAsCouple"
     = Some (if params.[2] == Str "164958AAAAAAAAAAAAAAAAAAAAAAAAAAAAAA"
             then num 1 else num 0).
Proof.
  split; [|split; [|apply tested_lookup]].
  - destruct (conversion_group EverTested params) as (t1 & Ht1 & H1 & L1).
    destruct (conversion_group TestedAs params) as (t2 & Ht2 & H2 & L2).
    assert (t1 = None \/ t2 = None) as [-> | ->].
    { destruct (tested_exclusive params) as [E|E]; [left|right].
      - rewrite H1 in E. apply (assign_fixed _ _ E).
        intros k Hk. by apply (initial_target EverTested), Ht1.
      - rewrite H2 in E. apply (assign_fixed _ _ E).
        intros k Hk. by apply (initial_target TestedAs), Ht2. }
    + exists t2. intros k Hk. unfold tested_fields in Hk. set_unfold in Hk.
      destruct_or?; subst; try done;
        first [ apply L2; cbn [targets]; solve_elem_of
              | rewrite L1 by (cbn [targets]; solve_elem_of);
                rewrite decide_False by done;
                rewrite decide_False
                  by (apply (not_target TestedAs);
                      [done | cbn [targets]; solve_not_elem_of]);
                done ].
    + exists t1. intros k Hk. unfold tested_fields in Hk. set_unfold in Hk.
      destruct_or?; subst; try done;
        first [ apply L1; cbn [targets]; solve_elem_of
              | rewrite L2 by (cbn [targets]; solve_elem_of);
                rewrite decide_False by done;
                rewrite decide_False
                  by (apply (not_target EverTested);
                      [done | cbn [targets]; solve_not_elem_of]);
                done ].
  - intros params' H k Hk. unfold tested_fields in Hk. set_unfold in Hk.
    destruct_or?; subst; try done;
      first [ rewrite !(lookup_own EverTested) by (cbn [targets]; solve_elem_of);
              rewrite (convert_congr _ params' _ (initial params))
                by (rewrite !(initial_target EverTested)
                      by (cbn [targets]; solve_elem_of); done);
              cbn [convert]; unfold convert_ever_tested; by rewrite H
            | rewrite !(lookup_own TestedAs) by (cbn [targets]; solve_elem_of);
              rewrite (convert_congr _ params' _ (initial params))
                by (rewrite !(initial_target TestedAs)
                      by (cbn [targets]; solve_elem_of); done);
              cbn [convert]; unfold convert_tested_as; by rewrite H ].
Qed.

Lemma tested_indicators_exclusive_witness :
  predictionVariables child_at_VCT !! "EverTestedForHIVYes"
  = predictionVariables adult_at_VCT !! "EverTestedForHIVYes".
Proof.
  apply (proj1 (proj2 (tested_indicators_exclusive adult_at_VCT)));
    [reflexivity | unfold tested_fields; solve_elem_of].
Defined.

(** ** The scoring call *)

Lemma no_fetch_bind {A B : Type} (m : Async A) (f : A -> Async B) :
  no_fetch m -> (forall a, no_fetch (f a)) -> no_fetch (m ≫= f).
Proof.
  intros Hm Hf. unfold mbind, Async_bind.
  induction m as [a|e|args k IH|k IH|u i k IH]; cbn in *; auto.
Qed.

Lemma no_fetch_requests {A : Type} (h : Host) (m : Async A) :
  no_fetch m -> requests (run h m) = [].
Proof.
  induction m as [a|e|args k IH|k IH|u i k IH]; cbn; intros H; auto; try done.
Qed.

Lemma no_fetch_eval {A : Type} (e : option A) : no_fetch (eval e).
Proof. by destruct e. Qed.

(** The callback sends nothing. *)
Lemma no_fetch_on_result (result : json) : no_fetch (on_result result).
Proof.
  unfold on_result. case_match; [|done]. cbn [no_fetch].
  repeat first
    [ apply no_fetch_eval
    | apply no_fetch_bind; [|intros []]
    | done ].
Qed.

(** Whatever the parameters, the clock and the network, the function sends
    one request, and it is [request]. *)
Lemma getMLRiskScore_requests (h : Host) (params : list prim) :
  requests (run h (getMLRiskScore params)) = [request].
Proof.
  unfold getMLRiskScore. cbn [run requests mbind Async_bind bind].
  destruct (network h _ _) as [response|]; [|done].
  cbn [requests]. f_equal.
  apply no_fetch_requests.
  change (no_fetch (json_of response ≫= on_result)).
  apply no_fetch_bind; [by unfold json_of; case_match|].
  apply no_fetch_on_result.
Qed.

(** With a body that parses, the promise settles as the callback does. *)
Lemma settles_on_result (params : list prim) (iso : string) (result : json) :
  settles params iso result
  = outcome (run (answering iso (Some {| parsed := Some result |}))
                 (on_result result)).
Proof. reflexivity. Qed.

(** C1 at the failing input: a probability equal to the high threshold,
    0.028924102, gets the medium-probability message, not the
    high-probability one. *)
Theorem high_threshold_classified_medium (params : list prim) (iso : string) :
  settles params iso (scoring_response (JPrim (Num highRiskThreshold)))
  = Fulfilled medium_message.
Proof. rewrite settles_on_result. vm_compute. reflexivity. Qed.

(** The part of C1 that holds at the two lower thresholds: a probability
    equal to the medium threshold gets the medium-probability message, one
    equal to the low threshold the low-probability message. *)
Lemma lower_thresholds_resolve_down (params : list prim) (iso : string) :
  settles params iso (scoring_response (JPrim (Num mediumRiskThreshold)))
  = Fulfilled medium_message
  /\ settles params iso (scoring_response (JPrim (Num lowRiskThreshold)))
     = Fulfilled low_message.
Proof. rewrite !settles_on_result. split; vm_compute; reflexivity. Qed.

(** For every number the classification returns: the promise is fulfilled
    with one of the four messages or the sentinel, and with the sentinel
    for NaN. *)
Lemma classification_total (params : list prim) (iso : string) (x : number) :
  (exists s, s ∈ messages
     /\ settles params iso (scoring_response (JPrim (Num x))) = Fulfilled s)
  /\ settles params iso (scoring_response (JPrim (Num NaN)))
     = Fulfilled no_results.
Proof.
  split; [|by rewrite settles_on_result].
  rewrite settles_on_result. unfold on_result.
  change (predictions (scoring_response (JPrim (Num x))))
    with (JObj [("probability(1)", JPrim (Num x))]).
  change (chained_probability (scoring_response (JPrim (Num x))))
    with (Some (JPrim (Num x))).
  change (probability (scoring_response (JPrim (Num x))))
    with (Some (JPrim (Num x))).
  cbn [Json.ToBoolean mbind option_bind Json.gt Json.lt Json.le Json.ToNumber
       conversion_throws Value.ToNumber eval Async_bind bind run outcome].
  destruct (lessThan highRiskThreshold x) as [[]|];
    destruct (lessThan x highRiskThreshold) as [[]|];
    destruct (lessThan mediumRiskThreshold x) as [[]|];
    destruct (lessThan lowRiskThreshold x) as [[]|];
    cbn; eexists; (split; [|reflexivity]); unfold messages; solve_elem_of.
Qed.

(** C2: for any two parameter lists, under any clocks and networks, the
    requests sent are the same: one request, to the fixed address, whose
    body is the serialised constant [mlScoringRequestPayload], with the
    encounter date 2023-03-15 and its 168 variable values. *)
Theorem request_independent_of_params
    (h1 h2 : Host) (params1 params2 : list prim) :
  requests (run h1 (getMLRiskScore params1))
  = requests (run h2 (getMLRiskScore params2))
  /\ requests (run h1 (getMLRiskScore params1)) = [request]
  /\ Get (Get mlScoringRequestPayload "modelConfigs") "encounterDate"
     = str "2023-03-15"
  /\ (exists values,
        Get mlScoringRequestPayload "variableValues" = JObj values
        /\ length values = 168%nat).
Proof.
  rewrite !getMLRiskScore_requests. repeat split.
  eexists. split; reflexivity.
Qed.

(** C3, as the code has it: the probability 0.03 gets the very-high
    message, 0.01 the medium message (it is below the medium threshold
    0.010638781), 0.005 the medium message and 0.001 the low message. *)
Theorem scenarios (params : list prim) (iso : string) :
  settles params iso (scoring_response (JPrim (Num number_0_03)))
  = Fulfilled very_high_message
  /\ settles params iso (scoring_response (JPrim (Num number_0_01)))
     = Fulfilled medium_message
  /\ settles params iso (scoring_response (JPrim (Num number_0_005)))
     = Fulfilled medium_message
  /\ settles params iso (scoring_response (JPrim (Num number_0_001)))
     = Fulfilled low_message.
Proof. rewrite !settles_on_result. repeat split; vm_compute; reflexivity. Qed.

(** C3 as stated fails at 0.01: the promise is not fulfilled with the
    high-probability message. *)
Lemma scenario_0_01_not_high :
  settles adult_at_VCT a_date (scoring_response (JPrim (Num number_0_01)))
  <> Fulfilled high_message.
Proof. rewrite settles_on_result. vm_compute. discriminate. Qed.

Lemma predictions_missing (result : json) :
  ~ has_predictions result -> predictions result = undefined.
Proof.
  intros H. unfold predictions.
  destruct result as [p|items|props]; cbn [Json.nullish Get];
    try by repeat case_match.
  destruct (own_property props "result") as [[p|items|props']|] eqn:E; cbn;
    try by repeat case_match.
  destruct (own_property props' "predictions") as [v|] eqn:E'; [|done].
  destruct H. by exists props, props', v.
Qed.

(** C4: when the parsed body has no field [result.predictions], the
    promise is fulfilled with the sentinel "No results found"; it is not
    rejected. *)
Theorem missing_predictions_gives_sentinel
    (params : list prim) (iso : string) (result : json) :
  ~ has_predictions result ->
  settles params iso result = Fulfilled no_results.
Proof.
  intros H. rewrite settles_on_result. unfold on_result.
  by rewrite (predictions_missing result H).
Qed.

(** C4 at the body [{}]. *)
Lemma missing_predictions_gives_sentinel_witness :
  settles adult_at_VCT a_date (JObj []) = Fulfilled no_results.
Proof.
  apply missing_predictions_gives_sentinel.
  intros (props & props' & v & [= <-] & E & _). discriminate E.
Defined.

(** * Properties of the rest of the code *)

(** ** The feature vector *)

(** An assignment to a property the object has keeps its property names. *)
Lemma dom_assign (t : option string) (pv : object) :
  (forall k, t = Some k -> k ∈ dom pv) -> dom (assign t pv) = dom pv.
Proof.
  destruct t as [k|]; cbn [assign]; [|done]. intros H.
  rewrite dom_insert_L. apply subseteq_union_1_L.
  apply singleton_subseteq_l. by apply H.
Qed.

(** The object literal has the names of the schema. *)
Lemma dom_initial (params : list prim) :
  dom (initial params) = list_to_set schema.
Proof.
  unfold initial. rewrite dom_list_to_map_L. reflexivity.
Qed.

(** Every conversion step assigns to names of the schema only. *)
Lemma dom_convert (c : conversion) (params : list prim) (pv : object) :
  dom pv = list_to_set schema -> dom (convert c params pv) = list_to_set schema.
Proof.
  intros H. destruct (convert_shape c params) as (t & Ht & ->).
  rewrite dom_assign; [done|]. intros k Hk. rewrite H.
  apply Ht in Hk. apply elem_of_list_to_set.
  destruct c; cbn [targets] in Hk; set_unfold in Hk; destruct_or?; subst;
    try done; unfold schema; solve_elem_of.
Qed.

(** The encoded object has exactly the property names of the object
    literal, whatever the parameters: no branch adds a name (not even by a
    misspelt one) and none removes one. *)
Theorem feature_vector_schema (params : list prim) :
  dom (predictionVariables params) = list_to_set schema.
Proof.
  rewrite predictionVariables_unfold.
  repeat apply dom_convert. apply dom_initial.
Qed.

(** Every property of the encoded object other than [MonthsSinceLastTest]
    is 0 or 1; [AgeAtTest] among them, which never carries the age. *)
Theorem indicators_are_bits (params : list prim) (k : string) :
  k ∈ schema -> k <> "MonthsSinceLastTest" ->
  predictionVariables params !! k = Some (num 0)
  \/ predictionVariables params !! k = Some (num 1).
Proof.
  intros Hk Hne. destruct (gender_lookup params) as [HM HF].
  unfold schema in Hk. set_unfold in Hk. destruct_or?; subst; try done;
    first [ by destruct Hne
          | rewrite lookup_untouched by solve_untouched; by left
          | rewrite HM; destruct (params.[3] == Str "M"); [by right | by left]
          | rewrite HF; destruct (params.[3] == Str "F"); [by right | by left]
          | bit_of_group (conversion_group MaritalStatus params)
          | bit_of_group (conversion_group Minor params)
          | bit_of_group (conversion_group PopulationType params)
          | bit_of_group (conversion_group DisabilityStatus params)
          | bit_of_group (conversion_group EverTested params)
          | bit_of_group (conversion_group TestedAs params)
          | bit_of_group (conversion_group EntryPoint params)
          | bit_of_group (conversion_group Strategy params)
          | bit_of_group (conversion_group SelfTest params)
          | bit_of_group (conversion_group TbScreening params) ].
Qed.

Lemma indicators_are_bits_witness :
  predictionVariables adult_at_VCT !! "TestingStrategyVCT" = Some (num 0)
  \/ predictionVariables adult_at_VCT !! "TestingStrategyVCT" = Some (num 1).
Proof.
  apply indicators_are_bits; [unfold schema; solve_elem_of | discriminate].
Defined.

(** No parameter list sets [EntryPointCCC] or [EntryPointPNS]: no branch
    assigns to them. *)
Theorem unreachable_entry_points (params : list prim) :
  predictionVariables params !! "EntryPointCCC" = Some (num 0)
  /\ predictionVariables params !! "EntryPointPNS" = Some (num 0).
Proof.
  split; (rewrite lookup_untouched by solve_untouched; reflexivity).
Qed.

(** ** The order of numbers *)

(** Comparing the other way round gives the opposite answer. *)
Lemma SFcompare_antisym (x y : number) (c : comparison) :
  SFcompare x y = Some c -> SFcompare y x = Some (CompOpp c).
Proof.
  destruct x as [s1|s1| |s1 m1 e1], y as [s2|s2| |s2 m2 e2]; cbn;
    intros [= <-]; try destruct s1; try destruct s2; cbn; try reflexivity;
    change (Pos.compare_cont Eq) with Pos.compare;
    repeat match goal with
           | |- context [(?a ?= ?b)%Z] => destruct (Z.compare_spec a b)
           | |- context [(?a ?= ?b)%positive] => destruct (Pos.compare_spec a b)
           end; cbn; try reflexivity; exfalso; lia.
Qed.

(** [<] is asymmetric. *)
Lemma lessThan_asym (x y : number) :
  lessThan x y = Some true -> lessThan y x = Some false.
Proof.
  unfold lessThan. destruct (SFcompare x y) as [c|] eqn:E; [|done].
  apply SFcompare_antisym in E. rewrite E. by destruct c.
Qed.

(** When [y < x] is false and [y < z] is true, [z < x] is false. *)
Lemma lessThan_le_lt (x y z : number) :
  lessThan y x = Some false -> lessThan y z = Some true ->
  lessThan z x = Some false.
Proof.
  unfold lessThan.
  destruct x as [s1|s1| |s1 m1 e1], y as [s2|s2| |s2 m2 e2],
           z as [s3|s3| |s3 m3 e3]; cbn;
    try destruct s1; try destruct s2; try destruct s3; cbn;
    try discriminate; try reflexivity;
    change (Pos.compare_cont Eq) with Pos.compare;
    repeat match goal with
           | |- context [(?a ?= ?b)%Z] => destruct (Z.compare_spec a b)
           | |- context [(?a ?= ?b)%positive] => destruct (Pos.compare_spec a b)
           end; cbn; try discriminate; try reflexivity; intros; exfalso; lia.
Qed.

(** [MonthsSinceLastTest] is the parameter at position 6 or the number 0,
    and as a number it is never below 0 and never NaN; a text such as
    ['12'] is passed on as it is. *)
Theorem months_since_last_test_not_negative (params : list prim) :
  exists v : prim,
    predictionVariables params !! "MonthsSinceLastTest" = Some v
    /\ (v = num 0 \/ v = params.[6])
    /\ lessThan (Value.ToNumber v) (of_Z 0) = Some false.
Proof.
  rewrite lookup_untouched by solve_untouched.
  change (initial params !! "MonthsSinceLastTest")
    with (Some (if params.[6] > num 0 then params.[6] else num 0)).
  destruct (params.[6] > num 0) eqn:E.
  - exists (params.[6]). split; [done|]. split; [by right|].
    apply lessThan_asym.
    unfold Value.gt, Value.lt, IsLessThan, num in E.
    cbn [Value.ToNumber] in E.
    by destruct (lessThan (of_Z 0) (Value.ToNumber params.[6])) as [[]|].
  - exists (num 0). split; [done|]. split; [by left|]. reflexivity.
Qed.

(** ** Failures of the scoring call *)

(** When the request fails, and when the body of the answer is not JSON,
    the promise is rejected with that failure after one request; nothing
    is caught, and the second [console.log] is not reached. *)
Theorem transport_failures_reject (params : list prim) (iso : string) :
  run (answering iso None) (getMLRiskScore params)
  = {| logged := [first_log params]; requests := [request];
       outcome := Rejected NetworkError |}
  /\ run (answering iso (Some {| parsed := None |})) (getMLRiskScore params)
     = {| logged := [first_log params]; requests := [request];
          outcome := Rejected SyntaxError |}.
Proof. split; reflexivity. Qed.

(** ** The classification of any answer *)

(** A primitive probability is classified by its number. *)
Lemma settles_primitive (params : list prim) (iso : string) (p : prim) :
  settles params iso (scoring_response (JPrim p))
  = Fulfilled (tier (Value.ToNumber p)).
Proof.
  rewrite settles_on_result. unfold on_result, tier.
  change (predictions (scoring_response (JPrim p)))
    with (JObj [("probability(1)", JPrim p)]).
  change (chained_probability (scoring_response (JPrim p)))
    with (Some (JPrim p)).
  change (probability (scoring_response (JPrim p))) with (Some (JPrim p)).
  cbn [Json.ToBoolean mbind option_bind Json.gt Json.lt Json.le Json.ToNumber
       conversion_throws eval Async_bind bind run outcome].
  destruct (lessThan highRiskThreshold (Value.ToNumber p)) as [[]|];
    destruct (lessThan (Value.ToNumber p) highRiskThreshold) as [[]|];
    destruct (lessThan mediumRiskThreshold (Value.ToNumber p)) as [[]|];
    destruct (lessThan lowRiskThreshold (Value.ToNumber p)) as [[]|];
    reflexivity.
Qed.

(** The probability is compared as a number whatever its type: a string
    such as ['0.03'], a boolean or [null] gets the message of the number
    it converts to. *)
Theorem probability_read_as_number (params : list prim) (iso : string) (p : prim) :
  settles params iso (scoring_response (JPrim p))
  = settles params iso (scoring_response (JPrim (Num (Value.ToNumber p)))).
Proof. by rewrite !settles_primitive. Qed.

(** When [predictions] is truthy, both ways of reading the probability
    give a value, the same one. *)
Lemma truthy_predictions (result : json) :
  Json.ToBoolean (predictions result) = true ->
  exists p, chained_probability result = Some p /\ probability result = Some p.
Proof.
  unfold predictions, chained_probability, probability, member.
  destruct (Json.nullish result) eqn:E1; [done|].
  cbn [mbind option_bind].
  destruct (Json.nullish (Get result "result")) eqn:E2; [done|].
  cbn [mbind option_bind]. intros H.
  destruct (Json.nullish (Get (Get result "result") "predictions")) eqn:E3.
  - by destruct (Get (Get result "result") "predictions") as [[]| |].
  - by eexists.
Qed.

(** The chain of comparisons on a number ends in one of the messages. *)
Lemma classify_number (h : Host) (x : number) :
  exists s, s ∈ messages /\
  outcome (run h (
    c ← eval (Some (default false (lessThan highRiskThreshold x)));
    if c : bool then Return very_high_message
    else
      c1 ← eval (Some (default false (lessThan x highRiskThreshold)));
      c2 ← (if c1 : bool
            then eval (Some (default false (lessThan mediumRiskThreshold x)))
            else Return false);
      if c2 : bool then Return high_message
      else
        c ← eval (Some (default false (lessThan lowRiskThreshold x)));
        if c : bool then Return medium_message
        else
          c ← eval (Some (default false (negb <$> lessThan lowRiskThreshold x)));
          if c : bool then Return low_message
          else Return no_results)) = Fulfilled s.
Proof.
  destruct (lessThan highRiskThreshold x) as [[]|];
    destruct (lessThan x highRiskThreshold) as [[]|];
    destruct (lessThan mediumRiskThreshold x) as [[]|];
    destruct (lessThan lowRiskThreshold x) as [[]|];
    cbn; eexists; (split; [|reflexivity]); unfold messages; solve_elem_of.
Qed.

(** Whatever the parsed body, the promise is fulfilled with one of the
    five messages, or rejected with a TypeError; the latter only when the
    probability is an object or array whose conversion to a number
    throws. *)
Theorem settles_message_or_type_error
    (params : list prim) (iso : string) (result : json) :
  (exists s, s ∈ messages /\ settles params iso result = Fulfilled s)
  \/ (settles params iso result = Rejected TypeError
      /\ exists p, chained_probability result = Some p
                   /\ conversion_throws p = true).
Proof.
  rewrite settles_on_result. unfold on_result.
  destruct (Json.ToBoolean (predictions result)) eqn:E.
  - destruct (truthy_predictions result E) as (p & -> & ->).
    cbn [run outcome mbind option_bind].
    unfold Json.gt, Json.lt, Json.le, Json.ToNumber.
    destruct (conversion_throws p) eqn:Ep.
    + right. split; [reflexivity|]. by exists p.
    + left. cbn [mbind option_bind]. apply classify_number.
  - left. exists no_results. split; [unfold messages; solve_elem_of|reflexivity].
Qed.

(** The tiers by open intervals, for every number: above the high
    threshold the very-high message; strictly between the medium and the
    high threshold the high message; above the low and not above the
    medium threshold the medium message; not above the low threshold (and
    not NaN) the low message. *)
Theorem tiers_by_interval (params : list prim) (iso : string) (x : number) :
  (lessThan highRiskThreshold x = Some true ->
   settles params iso (scoring_response (JPrim (Num x)))
   = Fulfilled very_high_message)
  /\ (lessThan mediumRiskThreshold x = Some true ->
      lessThan x highRiskThreshold = Some true ->
      settles params iso (scoring_response (JPrim (Num x)))
      = Fulfilled high_message)
  /\ (lessThan lowRiskThreshold x = Some true ->
      lessThan mediumRiskThreshold x = Some false ->
      settles params iso (scoring_response (JPrim (Num x)))
      = Fulfilled medium_message)
  /\ (lessThan lowRiskThreshold x = Some false ->
      settles params iso (scoring_response (JPrim (Num x)))
      = Fulfilled low_message).
Proof.
  destruct thresholds_ordered as [Hlm Hmh].
  rewrite settles_primitive. cbn [Value.ToNumber]. unfold tier.
  repeat split.
  - intros ->. reflexivity.
  - intros Hm Hh. rewrite (lessThan_asym _ _ Hh), Hh, Hm. reflexivity.
  - intros Hl Hm.
    rewrite (lessThan_le_lt _ _ _ Hm Hmh), Hm, Hl.
    by destruct (lessThan x highRiskThreshold) as [[]|].
  - intros Hl.
    pose proof (lessThan_le_lt _ _ _ Hl Hlm) as Hm.
    rewrite (lessThan_le_lt _ _ _ Hm Hmh), Hm, Hl.
    by destruct (lessThan x highRiskThreshold) as [[]|].
Qed.

Lemma tiers_by_interval_witness :
  settles adult_at_VCT a_date
    (scoring_response (JPrim (Num (of_decimal false 2 (-2)))))
  = Fulfilled high_message.
Proof.
  apply (proj1 (proj2 (tiers_by_interval adult_at_VCT a_date
                         (of_decimal false 2 (-2)))));
    vm_compute; reflexivity.
Defined.


(** ** The calls to the server *)

(** The length of a non-empty array or string is truthy. *)
Lemma of_Z_positive (z : Z) :
  (0 < z)%Z -> is_zero (of_Z z) = false /\ is_NaN (of_Z z) = false.
Proof.
  intros Hz. unfold of_Z, of_ratio.
  rewrite Z.abs_eq by lia.
  destruct (z =? 0)%Z eqn:E0; [lia|].
  set (e := Z.max (ilog2_ratio z 1 - 52) (-1074)).
  set (m := if (0 <=? e)%Z then round_half_even z (1 * 2 ^ e)
            else round_half_even (z * 2 ^ (- e)) 1).
  assert (0 < m)%Z as Hm.
  { assert (forall n d, (0 < d)%Z -> (d <= n)%Z -> (0 < round_half_even n d)%Z) as Hr.
    { intros n d Hd Hn. unfold round_half_even.
      assert (1 <= n / d)%Z by (apply Z.div_le_lower_bound; lia).
      destruct (2 * (n mod d) ?= d)%Z; [destruct (Z.even (n / d))| |]; lia. }
    subst m. destruct (0 <=? e)%Z eqn:Ee.
    - apply Z.leb_le in Ee. apply Hr; [lia|].
      rewrite Z.mul_1_l.
      assert (e = ilog2_ratio z 1 - 52)%Z as -> by lia.
      assert (ilog2_ratio z 1 <= Z.log2 z)%Z as Hk.
      { unfold ilog2_ratio. change (Z.log2 1) with 0%Z.
        rewrite Z.sub_0_r. destruct (ratio_ge_pow2 z 1 (Z.log2 z)); lia. }
      pose proof (Z.log2_spec z Hz) as [Hlog _].
      etrans; [|exact Hlog].
      apply Z.pow_le_mono_r; lia.
    - apply Z.leb_gt in Ee. apply Hr; [lia|].
      assert (0 < 2 ^ (- e))%Z by (apply Z.pow_pos_nonneg; lia). nia. }
  destruct (m =? 2 ^ 53)%Z eqn:E53.
  - cbn. by destruct (971 <? e + 1)%Z.
  - destruct (m =? 0)%Z eqn:Em; [lia|]. by destruct (971 <? e)%Z.
Qed.

Lemma length_truthy (n : nat) : Json.ToBoolean (jlength (S n)) = true.
Proof.
  unfold jlength. cbn [Json.ToBoolean Value.ToBoolean].
  destruct (of_Z_positive (Z.of_nat (S n))) as [-> ->]; [lia|]. reflexivity.
Qed.

Lemma length_falsy : Json.ToBoolean (jlength 0) = false.
Proof. reflexivity. Qed.

(** [saveEncounter]: one POST request with the payload and the signal of
    the controller.  It goes to the address of the encounter when a
    non-empty UUID is given and to the address of the collection when the
    UUID is absent or empty; the promise is what [openmrsFetch] gave. *)
Theorem saveEncounter_create_or_update
    (server : Rest.Server) (abortController : Rest.AbortController)
    (payload : json) (encounterUuid : option string) :
  let h := Rest.perform server
             (Rest.saveEncounter abortController payload encounterUuid) in
  let url :=
    match encounterUuid with
    | None | Some "" => "/ws/rest/v1/encounter?v=full"
    | Some uuid => "/ws/rest/v1/encounter/" +:+ uuid +:+ "?v=full"
    end in
  Rest.sent h = [(url, Some (save_config abortController payload))]
  /\ Rest.result h
     = match server url (Some (save_config abortController payload)) with
       | Some response => Fulfilled response
       | None => Rejected NetworkError
       end.
Proof.
  cbv zeta. unfold Rest.saveEncounter.
  destruct encounterUuid as [[|c s]|]; cbn [Rest.given String.eqb negb Rest.text default from_option id
         Rest.perform];
    fold (save_config abortController payload);
    match goal with |- context [server ?u ?c] => destruct (server u c) end;
    split; reflexivity.
Qed.

(** A promise that is already settled sends nothing. *)
Lemma perform_settle {A : Type} (server : Rest.Server) (r : option A) :
  Rest.perform server (Rest.settle r)
  = {| Rest.sent := [];
       Rest.result := match r with
                      | Some a => Fulfilled a
                      | None => Rejected TypeError
                      end |}.
Proof. by destruct r. Qed.

(** One request answered with [d], then a callback. *)
Lemma perform_answered {A : Type} (d : json) (url : string)
    (f : Rest.FetchResponse -> option A) :
  Rest.perform (answers d)
    (Rest.and_then (Rest.openmrsFetch url None Rest.resolve)
                   (fun response => Rest.settle (f response)))
  = {| Rest.sent := [(url, None)];
       Rest.result := match f {| Rest.data := d |} with
                      | Some a => Fulfilled a
                      | None => Rejected TypeError
                      end |}.
Proof.
  cbn [Rest.and_then Rest.perform answers]. rewrite perform_settle. reflexivity.
Qed.

(** [getPreviousEncounter] when the answer has an array [results]: the
    promise is fulfilled with the first element, and with [null] when the
    array is empty. *)
Theorem previous_encounter_first_or_null
    (encounterRepresentation patientUuid type : string)
    (encounterType d : json) (items : list json) :
  interpolate encounterType = Some type ->
  get d "results" = Some (JArr items) ->
  exists p,
    Rest.getPreviousEncounter encounterRepresentation patientUuid encounterType
    = Rest.returned p
    /\ Rest.perform (answers d) p
       = {| Rest.sent :=
              [("/ws/rest/v1/encounter?"
                +:+ ("encounterType=" +:+ type +:+ "&patient=" +:+ patientUuid)
                +:+ "&limit=1&v=" +:+ encounterRepresentation, None)];
            Rest.result := Fulfilled (default Rest.null (head items)) |}.
Proof.
  intros Ht Hd. unfold Rest.getPreviousEncounter. rewrite Ht.
  eexists. split; [reflexivity|].
  rewrite perform_answered. cbn [Rest.data]. rewrite Hd.
  cbn [mbind option_bind get String.eqb Ascii.eqb Bool.eqb].
  destruct items as [|x rest].
  - reflexivity.
  - cbn [length]. rewrite length_truthy. reflexivity.
Qed.

Lemma previous_encounter_first_or_null_witness :
  exists p,
    Rest.getPreviousEncounter "full" "p-1" (str "e-1") = Rest.returned p
    /\ Rest.perform (answers two_names) p
       = {| Rest.sent :=
              [("/ws/rest/v1/encounter?encounterType=e-1&patient=p-1&limit=1&v=full",
                None)];
            Rest.result := Fulfilled (JObj [("display", str "Weight")]) |}.
Proof.
  apply (previous_encounter_first_or_null "full" "p-1" "e-1" (str "e-1") two_names
           [JObj [("display", str "Weight")];
            JObj [("display", str "Weight (kg)")]]); reflexivity.
Defined.

Lemma get_nullish (v : json) (k : string) :
  Json.nullish v = true -> get v k = None.
Proof. by destruct v as [[]| |]. Qed.

(** [getPreviousEncounter] when the answer has no [results] (or is itself
    [null]): reading [length] throws in the callback, and the promise is
    rejected with a TypeError. *)
Theorem previous_encounter_missing_results_rejects
    (encounterRepresentation patientUuid type : string)
    (encounterType d : json) :
  interpolate encounterType = Some type ->
  (get d "results" = None
   \/ exists r, get d "results" = Some r /\ Json.nullish r = true) ->
  exists p,
    Rest.getPreviousEncounter encounterRepresentation patientUuid encounterType
    = Rest.returned p
    /\ Rest.result (Rest.perform (answers d) p) = Rejected TypeError.
Proof.
  intros Ht Hd. unfold Rest.getPreviousEncounter. rewrite Ht.
  eexists. split; [reflexivity|].
  rewrite perform_answered. cbn [Rest.data Rest.result].
  destruct Hd as [->|(r & -> & Hr)]; [reflexivity|].
  cbn [mbind option_bind]. rewrite (get_nullish r "length") by done. reflexivity.
Qed.

Lemma previous_encounter_missing_results_rejects_witness :
  exists p,
    Rest.getPreviousEncounter "full" "p-1" (str "e-1") = Rest.returned p
    /\ Rest.result (Rest.perform (answers (JObj [])) p) = Rejected TypeError.
Proof.
  apply (previous_encounter_missing_results_rejects "full" "p-1" "e-1");
    [reflexivity|].
  right. by exists undefined.
Defined.

(** The table behind [last_index_ok]: up to a thousand elements the
    subscript [length - 1] is the last index. *)
Lemma last_index_table (n : nat) : (n < 1000)%nat -> last_index_ok n = true.
Proof.
  intros Hn.
  assert (forallb last_index_ok (seq 0 1000) = true) as H
    by (vm_compute; reflexivity).
  rewrite forallb_forall in H. apply H. apply in_seq. lia.
Qed.

Lemma array_index_not_length (k : string) (n : nat) :
  array_index k = Some n -> String.eqb k "length" = false.
Proof.
  intros H. destruct (String.eqb_spec k "length") as [->|]; [|done].
  discriminate H.
Qed.

(** [fetchConceptNameByUuid] when the answer has a non-empty array
    [results] (of at most a thousand elements): the promise is fulfilled
    with the [display] of the last element, not of the first; it is
    rejected with a TypeError when that element is [null]. *)
Theorem concept_name_of_last
    (conceptUuid : string) (d : json) (items : list json) (x : json) :
  (length items < 1000)%nat ->
  get d "results" = Some (JArr (items ++ [x])) ->
  Rest.perform (answers d) (Rest.fetchConceptNameByUuid conceptUuid)
  = {| Rest.sent :=
         [("/ws/rest/v1/concept/" +:+ conceptUuid +:+ "/name?limit=1", None)];
       Rest.result := match get x "display" with
                      | Some v => Fulfilled v
                      | None => Rejected TypeError
                      end |}.
Proof.
  intros Hn Hd. unfold Rest.fetchConceptNameByUuid.
  rewrite perform_answered. cbn [Rest.data]. rewrite Hd.
  cbn [mbind option_bind].
  assert (get (JArr (items ++ [x])) "length" = Some (jlength (S (length items))))
    as -> by (cbn; by rewrite length_app, Nat.add_1_r).
  cbn [mbind option_bind]. rewrite length_truthy.
  pose proof (last_index_table _ Hn) as Hi. unfold last_index_ok in Hi.
  destruct (Json.ToNumber (jlength (S (length items)))) as [n|]; [|done].
  apply bool_decide_eq_true in Hi. cbn [mbind option_bind].
  assert (get (JArr (items ++ [x])) (NumberToString (minus_one n)) = Some x)
    as ->.
  { unfold get. rewrite (array_index_not_length _ _ Hi), Hi.
    by rewrite list_lookup_middle. }
  reflexivity.
Qed.

Lemma concept_name_of_last_witness :
  Rest.perform (answers two_names) (Rest.fetchConceptNameByUuid "c-1")
  = {| Rest.sent := [("/ws/rest/v1/concept/c-1/name?limit=1", None)];
       Rest.result := Fulfilled (str "Weight (kg)") |}.
Proof.
  apply (concept_name_of_last "c-1" two_names
           [JObj [("display", str "Weight")]]
           (JObj [("display", str "Weight (kg)")])); [cbn; lia | reflexivity].
Defined.

(** [fetchConceptNameByUuid] when [results] is an empty array: the promise
    is fulfilled with [undefined], where the sibling functions give
    [null]. *)
Theorem concept_name_undefined_when_empty (conceptUuid : string) (d : json) :
  get d "results" = Some (JArr []) ->
  Rest.result (Rest.perform (answers d) (Rest.fetchConceptNameByUuid conceptUuid))
  = Fulfilled undefined.
Proof.
  intros Hd. unfold Rest.fetchConceptNameByUuid.
  rewrite perform_answered. cbn [Rest.data Rest.result]. by rewrite Hd.
Qed.

Lemma concept_name_undefined_when_empty_witness :
  Rest.result (Rest.perform (answers (JObj [("results", JArr [])]))
                            (Rest.fetchConceptNameByUuid "c-1"))
  = Fulfilled undefined.
Proof. apply concept_name_undefined_when_empty. reflexivity. Defined.

(** [getLatestObs] when the answer has no [entry], or an empty one: the
    optional chain gives a falsy length and the promise is fulfilled with
    [null]; nothing is thrown. *)
Theorem latest_obs_null_without_entries
    (patientUuid conceptUuid : string) (encounterTypeUuid : option string)
    (d e : json) :
  get d "entry" = Some e ->
  Json.nullish e = true \/ e = JArr [] ->
  Rest.result (Rest.perform (answers d)
                 (Rest.getLatestObs patientUuid conceptUuid encounterTypeUuid))
  = Fulfilled Rest.null.
Proof.
  intros Hd He. unfold Rest.getLatestObs. cbv zeta.
  rewrite perform_answered. cbn [Rest.data Rest.result]. rewrite Hd.
  cbn [mbind option_bind].
  destruct He as [->| ->]; reflexivity.
Qed.

Lemma latest_obs_null_without_entries_witness :
  Rest.result (Rest.perform (answers (JObj []))
                 (Rest.getLatestObs "p-1" "c-1" None))
  = Fulfilled Rest.null.
Proof.
  apply (latest_obs_null_without_entries "p-1" "c-1" None (JObj []) undefined);
    [reflexivity | by left].
Defined.

(** [getLatestObs] when [entry] is a non-empty array: the promise is
    fulfilled with the [resource] of the first entry, and rejected with a
    TypeError when that entry is [null]. *)
Theorem latest_obs_first_resource
    (patientUuid conceptUuid : string) (encounterTypeUuid : option string)
    (d x : json) (rest : list json) :
  get d "entry" = Some (JArr (x :: rest)) ->
  Rest.result (Rest.perform (answers d)
                 (Rest.getLatestObs patientUuid conceptUuid encounterTypeUuid))
  = match get x "resource" with
    | Some v => Fulfilled v
    | None => Rejected TypeError
    end.
Proof.
  intros Hd. unfold Rest.getLatestObs. cbv zeta.
  rewrite perform_answered. cbn [Rest.data Rest.result]. rewrite Hd.
  cbn [mbind option_bind Json.nullish get String.eqb Ascii.eqb Bool.eqb length].
  rewrite length_truthy. reflexivity.
Qed.

Lemma latest_obs_first_resource_witness :
  Rest.result
    (Rest.perform
       (answers (JObj [("entry", JArr [JObj [("resource", str "obs-1")];
                                        JObj [("resource", str "obs-2")]])]))
       (Rest.getLatestObs "p-1" "c-1" (Some "t-1")))
  = Fulfilled (str "obs-1").
Proof.
  apply (latest_obs_first_resource "p-1" "c-1" (Some "t-1") _
           (JObj [("resource", str "obs-1")])
           [JObj [("resource", str "obs-2")]]).
  reflexivity.
Defined.

(** A callback that only computes sends nothing. *)
Lemma sent_settle {A : Type} (server : Rest.Server) (r : option A) :
  Rest.sent (Rest.perform server (Rest.settle r)) = [].
Proof. by destruct r. Qed.

(** One request, then a callback that only computes. *)
Lemma sent_single {A : Type} (server : Rest.Server) (url : string)
    (config : option Rest.FetchConfig)
    (k : Rest.FetchResponse -> Rest.Promise A) :
  (forall response, Rest.sent (Rest.perform server (k response)) = []) ->
  Rest.sent (Rest.perform server
               (Rest.and_then (Rest.openmrsFetch url config Rest.resolve) k))
  = [(url, config)].
Proof.
  intros Hk. cbn [Rest.and_then Rest.perform].
  destruct (server url config) as [response|]; [|reflexivity].
  cbn [Rest.sent]. by rewrite Hk.
Qed.

(** [getLatestObs] asks for the newest observation of the concept, and
    filters by encounter type only when a non-empty one is given: an
    empty string is treated as no encounter type. *)
Theorem latest_obs_request
    (server : Rest.Server) (patientUuid conceptUuid : string)
    (encounterTypeUuid : option string) :
  Rest.sent (Rest.perform server
               (Rest.getLatestObs patientUuid conceptUuid encounterTypeUuid))
  = [("/ws/fhir2/R4/Observation?"
      +:+ (("patient=" +:+ patientUuid +:+ "&code=" +:+ conceptUuid
            +:+ match encounterTypeUuid with
                | None | Some "" => ""
                | Some uuid => "&encounter.type=" +:+ uuid
                end)
           +:+ "&_sort=-_lastUpdated&_count=1"), None)]
  /\ Rest.getLatestObs patientUuid conceptUuid (Some "")
     = Rest.getLatestObs patientUuid conceptUuid None.
Proof.
  split; [|reflexivity].
  unfold Rest.getLatestObs.
  rewrite (sent_single server) by (intros; apply sent_settle).
  by destruct encounterTypeUuid as [[|c uuid]|].
Qed.

(** [fetchOpenMRSForm] sends no request exactly when the name is empty,
    whatever the server and [isUuid]; the promise is then fulfilled with
    [null]. *)
Theorem form_of_empty_name
    (isUuid : string -> bool) (server : Rest.Server) (nameOrUUID : string) :
  (Rest.sent (Rest.perform server (Rest.fetchOpenMRSForm isUuid nameOrUUID)) = []
   <-> nameOrUUID = "")
  /\ Rest.perform server (Rest.fetchOpenMRSForm isUuid "")
     = {| Rest.sent := []; Rest.result := Fulfilled (Rest.Value Rest.null) |}.
Proof.
  split; [split|reflexivity].
  - intros H. destruct (String.eqb_spec nameOrUUID "") as [|Hne]; [done|].
    exfalso. unfold Rest.fetchOpenMRSForm in H.
    rewrite (proj2 (String.eqb_neq _ _) Hne) in H.
    destruct (isUuid nameOrUUID);
      rewrite (sent_single server) in H; try discriminate H; intros;
      [reflexivity | apply sent_settle].
  - by intros ->.
Qed.

(** [fetchOpenMRSForm] with a UUID: one request to the address of the
    form, and the promise is fulfilled with the answer as it is, whatever
    it holds. *)
Theorem form_by_uuid_is_the_answer
    (isUuid : string -> bool) (nameOrUUID : string) (d : json) :
  nameOrUUID <> "" -> isUuid nameOrUUID = true ->
  Rest.perform (answers d) (Rest.fetchOpenMRSForm isUuid nameOrUUID)
  = {| Rest.sent := [("/ws/rest/v1/form/" +:+ nameOrUUID +:+ "?v=full", None)];
       Rest.result := Fulfilled (Rest.Value d) |}.
Proof.
  intros Hne Hu. unfold Rest.fetchOpenMRSForm.
  rewrite (proj2 (String.eqb_neq _ _) Hne), Hu. reflexivity.
Qed.

Lemma form_by_uuid_is_the_answer_witness :
  Rest.perform (answers Rest.null)
    (Rest.fetchOpenMRSForm (fun s => Nat.eqb (String.length s) 36)
       "0a1b2c3d-0000-1111-2222-333344445555")
  = {| Rest.sent :=
         [("/ws/rest/v1/form/0a1b2c3d-0000-1111-2222-333344445555?v=full", None)];
       Rest.result := Fulfilled (Rest.Value Rest.null) |}.
Proof.
  apply (form_by_uuid_is_the_answer (fun s => Nat.eqb (String.length s) 36)
           "0a1b2c3d-0000-1111-2222-333344445555" Rest.null);
    [discriminate | reflexivity].
Defined.

(** [fetchOpenMRSForm] with a name for which the answer has no [results],
    or an empty array: the promise is fulfilled, not rejected, and with an
    [Error] object that says the form was not found, not with [null]. *)
Theorem form_not_found_is_a_fulfilled_error
    (isUuid : string -> bool) (nameOrUUID : string) (d r : json) :
  nameOrUUID <> "" -> isUuid nameOrUUID = false ->
  get d "results" = Some r ->
  Json.nullish r = true \/ r = JArr [] ->
  Rest.perform (answers d) (Rest.fetchOpenMRSForm isUuid nameOrUUID)
  = {| Rest.sent := [("/ws/rest/v1/form?q=" +:+ nameOrUUID +:+ "&v=full", None)];
       Rest.result :=
         Fulfilled (Rest.Error_object
                      ("Form with " +:+ nameOrUUID +:+ " was not found")) |}.
Proof.
  intros Hne Hu Hd Hr. unfold Rest.fetchOpenMRSForm.
  rewrite (proj2 (String.eqb_neq _ _) Hne), Hu.
  match goal with
  | |- Rest.perform _ (Rest.and_then _ ?k) = _ =>
      change k with (fun response : Rest.FetchResponse => Rest.settle (
        results ← get (Rest.data response) "results";
        len ← (if Json.nullish results then Some undefined
               else get results "length");
        if Json.ToBoolean len then
          results ← get (Rest.data response) "results";
          first ← get results "0";
          Some (Rest.Value first)
        else
          Some (Rest.Error_object
                  ("Form with " +:+ nameOrUUID +:+ " was not found"))))
  end.
  rewrite perform_answered. cbn [Rest.data]. rewrite Hd.
  cbn [mbind option_bind].
  destruct Hr as [-> | ->]; reflexivity.
Qed.

Lemma form_not_found_is_a_fulfilled_error_witness :
  Rest.perform (answers (JObj [("results", JArr [])]))
    (Rest.fetchOpenMRSForm (fun s => Nat.eqb (String.length s) 36) "Triage")
  = {| Rest.sent := [("/ws/rest/v1/form?q=Triage&v=full", None)];
       Rest.result :=
         Fulfilled (Rest.Error_object "Form with Triage was not found") |}.
Proof.
  apply (form_not_found_is_a_fulfilled_error
           (fun s => Nat.eqb (String.length s) 36) "Triage"
           (JObj [("results", JArr [])]) (JArr []));
    [discriminate | reflexivity | reflexivity | by right].
Defined.

(** [fetchOpenMRSForm] with a name for which [results] is a non-empty
    array: the promise is fulfilled with the first result. *)
Theorem form_by_name_is_the_first_result
    (isUuid : string -> bool) (nameOrUUID : string) (d x : json)
    (rest : list json) :
  nameOrUUID <> "" -> isUuid nameOrUUID = false ->
  get d "results" = Some (JArr (x :: rest)) ->
  Rest.result (Rest.perform (answers d) (Rest.fetchOpenMRSForm isUuid nameOrUUID))
  = Fulfilled (Rest.Value x).
Proof.
  intros Hne Hu Hd. unfold Rest.fetchOpenMRSForm.
  rewrite (proj2 (String.eqb_neq _ _) Hne), Hu.
  match goal with
  | |- context [Rest.and_then _ ?k] =>
      change k with (fun response : Rest.FetchResponse => Rest.settle (
        results ← get (Rest.data response) "results";
        len ← (if Json.nullish results then Some undefined
               else get results "length");
        if Json.ToBoolean len then
          results ← get (Rest.data response) "results";
          first ← get results "0";
          Some (Rest.Value first)
        else
          Some (Rest.Error_object
                  ("Form with " +:+ nameOrUUID +:+ " was not found"))))
  end.
  rewrite perform_answered. cbn [Rest.data Rest.result]. rewrite Hd.
  cbn [mbind option_bind Json.nullish get String.eqb Ascii.eqb Bool.eqb length].
  rewrite length_truthy. reflexivity.
Qed.

Lemma form_by_name_is_the_first_result_witness :
  Rest.result
    (Rest.perform (answers two_names)
       (Rest.fetchOpenMRSForm (fun s => Nat.eqb (String.length s) 36) "Triage"))
  = Fulfilled (Rest.Value (JObj [("display", str "Weight")])).
Proof.
  apply (form_by_name_is_the_first_result
           (fun s => Nat.eqb (String.length s) 36) "Triage" two_names
           (JObj [("display", str "Weight")])
           [JObj [("display", str "Weight (kg)")]]);
    [discriminate | reflexivity | reflexivity].
Defined.

(** [find] passes over the elements that are not the JSON schema. *)
Lemma find_JSON_schema_none (items : list json) :
  Forall not_JSON_schema items -> Rest.find_JSON_schema items = Some undefined.
Proof.
  induction 1 as [|x items (name & Hx & Hn) _ IH]; cbn [Rest.find_JSON_schema].
  - done.
  - by rewrite Hx, Hn.
Qed.

Lemma find_JSON_schema_first (pre post : list json) (r : json) :
  Forall not_JSON_schema pre ->
  get r "name" = Some (str "JSON schema") ->
  Rest.find_JSON_schema (pre ++ r :: post) = Some r.
Proof.
  intros Hpre Hr.
  induction Hpre as [|x pre (name & Hx & Hn) _ IH]; cbn [app Rest.find_JSON_schema].
  - by rewrite Hr.
  - by rewrite Hx, Hn.
Qed.

(** [fetchClobData] without a form, or with a form none of whose resources
    is named ['JSON schema']: the promise is fulfilled with [null] and no
    request is sent. *)
Theorem clob_data_null_without_schema
    (server : Rest.Server) (form : json) (items : list json) :
  Json.ToBoolean form = false
  \/ (get form "resources" = Some (JArr items)
      /\ Forall not_JSON_schema items) ->
  Rest.perform server (Rest.fetchClobData form)
  = {| Rest.sent := []; Rest.result := Fulfilled Rest.null |}.
Proof.
  unfold Rest.fetchClobData. intros [-> | [Hr Hitems]]; [reflexivity|].
  destruct (Json.ToBoolean form); [|reflexivity]. cbn [negb].
  rewrite Hr. cbn [mbind option_bind Rest.find_resource].
  rewrite (find_JSON_schema_none items Hitems). reflexivity.
Qed.

Lemma clob_data_null_without_schema_witness :
  Rest.perform (answers two_names)
    (Rest.fetchClobData
       (JObj [("resources", JArr [JObj [("name", str "Translations")]])]))
  = {| Rest.sent := []; Rest.result := Fulfilled Rest.null |}.
Proof.
  apply (clob_data_null_without_schema _ _ [JObj [("name", str "Translations")]]).
  right. split; [reflexivity|].
  apply Forall_cons_2; [|apply Forall_nil_2]. by exists (str "Translations").
Defined.

(** [fetchClobData] with a form whose resources hold one named
    ['JSON schema']: one request, for the value reference of the first such
    resource, and the promise is fulfilled with the answer. *)
Theorem clob_data_of_first_schema
    (d form r reference : json) (pre post : list json) (address : string) :
  Json.ToBoolean form = true ->
  get form "resources" = Some (JArr (pre ++ r :: post)) ->
  Forall not_JSON_schema pre ->
  get r "name" = Some (str "JSON schema") ->
  get r "valueReference" = Some reference ->
  interpolate reference = Some address ->
  Rest.perform (answers d) (Rest.fetchClobData form)
  = {| Rest.sent := [("/ws/rest/v1/clobdata/" +:+ address, None)];
       Rest.result := Fulfilled d |}.
Proof.
  intros Hform Hres Hpre Hname Href Haddr. unfold Rest.fetchClobData.
  rewrite Hform, Hres. cbn [negb mbind option_bind Rest.find_resource].
  rewrite (find_JSON_schema_first pre post r Hpre Hname).
  cbn [Rest.settle Rest.and_then].
  assert (Json.ToBoolean r = true) as ->.
  { destruct r as [[| | | |s]|l|props]; try done; cbn in Hname;
      destruct (array_index "name"); done || by destruct (l !! _). }
  cbn [negb]. rewrite Href. cbn [mbind option_bind]. rewrite Haddr.
  reflexivity.
Qed.

Lemma clob_data_of_first_schema_witness :
  Rest.perform (answers two_names) (Rest.fetchClobData form_with_schema)
  = {| Rest.sent := [("/ws/rest/v1/clobdata/r-2", None)];
       Rest.result := Fulfilled two_names |}.
Proof.
  apply (clob_data_of_first_schema two_names form_with_schema
           (JObj [("name", str "JSON schema"); ("valueReference", str "r-2")])
           (str "r-2")
           [JObj [("name", str "Translations"); ("valueReference", str "r-1")]]
           [JObj [("name", str "JSON schema"); ("valueReference", str "r-3")]]
           "r-2"); try reflexivity.
  apply Forall_cons_2; [|apply Forall_nil_2]. by exists (str "Translations").
Defined.

Lemma sent_one_request {A : Type} (server : Rest.Server) (url : string)
    (config : option Rest.FetchConfig)
    (k : Rest.FetchResponse -> Rest.Promise A) :
  (forall response, Rest.sent (Rest.perform server (k response)) = []) ->
  length (Rest.sent (Rest.perform server
            (Rest.and_then (Rest.openmrsFetch url config Rest.resolve) k))) = 1.
Proof. intros Hk. by rewrite sent_single. Qed.

Lemma sent_after_settle {A B : Type} (server : Rest.Server) (r : option A)
    (k : A -> Rest.Promise B) (n : nat) :
  (forall a, (length (Rest.sent (Rest.perform server (k a))) <= n)%nat) ->
  (length (Rest.sent (Rest.perform server (Rest.and_then (Rest.settle r) k)))
   <= n)%nat.
Proof. intros Hk. destruct r as [a|]; [apply Hk | cbn; lia]. Qed.

(** No function of the file asks twice: whatever the server answers, and
    whether the request fails or not, one call sends at most one request
    (there is no retry and no second look-up). *)
Theorem at_most_one_request
    (encounterRepresentation : string) (isUuid : string -> bool)
    (server : Rest.Server) :
  (forall abortController payload encounterUuid,
     length (Rest.sent (Rest.perform server
               (Rest.saveEncounter abortController payload encounterUuid))) = 1)
  /\ (forall patientUuid encounterType p,
        Rest.getPreviousEncounter encounterRepresentation patientUuid encounterType
        = Rest.returned p ->
        length (Rest.sent (Rest.perform server p)) = 1)
  /\ (forall conceptUuid,
        length (Rest.sent (Rest.perform server
                  (Rest.fetchConceptNameByUuid conceptUuid))) = 1)
  /\ (forall patientUuid conceptUuid encounterTypeUuid,
        length (Rest.sent (Rest.perform server
                  (Rest.getLatestObs patientUuid conceptUuid encounterTypeUuid))) = 1)
  /\ (forall nameOrUUID,
        (length (Rest.sent (Rest.perform server
                   (Rest.fetchOpenMRSForm isUuid nameOrUUID))) <= 1)%nat)
  /\ (forall form,
        (length (Rest.sent (Rest.perform server (Rest.fetchClobData form)))
         <= 1)%nat).
Proof.
  repeat split.
  - intros. unfold Rest.saveEncounter. cbn [Rest.perform].
    by destruct (server _ _).
  - intros patientUuid encounterType p. unfold Rest.getPreviousEncounter.
    destruct (interpolate encounterType); [|discriminate].
    intros [= <-]. apply sent_one_request. intros. apply sent_settle.
  - intros. apply sent_one_request. intros. apply sent_settle.
  - intros. apply sent_one_request. intros. apply sent_settle.
  - intros. unfold Rest.fetchOpenMRSForm.
    destruct (String.eqb nameOrUUID ""); [cbn; lia|].
    destruct (isUuid nameOrUUID);
      (rewrite sent_one_request; [lia|]); intros; [reflexivity|].
    apply sent_settle.
  - intros. unfold Rest.fetchClobData.
    destruct (negb (Json.ToBoolean form)); [cbn; lia|].
    apply sent_after_settle. intros r.
    destruct (negb (Json.ToBoolean r)); [cbn; lia|].
    apply sent_after_settle. intros reference.
    rewrite sent_one_request; [lia|]. reflexivity.
Qed.

Lemma at_most_one_request_witness :
  exists p,
    Rest.getPreviousEncounter "full" "p-1" (str "t-1") = Rest.returned p
    /\ length (Rest.sent (Rest.perform unreachable p)) = 1.
Proof.
  eexists. split; [reflexivity|].
  apply (proj1 (proj2 (at_most_one_request "full" (fun _ => false) unreachable))
           "p-1" (str "t-1")).
  reflexivity.
Defined.

(** The server that answers no request. *)
Lemma perform_unanswered {A : Type} (url : string)
    (config : option Rest.FetchConfig)
    (k : Rest.FetchResponse -> Rest.Promise A) :
  Rest.result (Rest.perform unreachable
                 (Rest.and_then (Rest.openmrsFetch url config Rest.resolve) k))
  = Rejected NetworkError.
Proof. reflexivity. Qed.



